(** * DOS file-name translation of PC-BASIC ([pcbasic/basic/devices/dosnames.py])

    A shallow embedding of the name codec ([split_dosname], [join_dosname]),
    the path normaliser ([dos_normpath]), the wildcard matcher
    ([match_wildcard]), the file-name matcher ([match_dosname],
    [match_filename]) and the path resolver
    ([NameConverter.native_path_elements]), with the properties the
    specification states about them.

    Conventions of the embedding.
    - A Python string (byte string or unicode string) is the list of its
      code units, each a number in [N].  Byte-string arguments are taken to
      be ASCII, so that the implicit ascii decoding Python 2 performs when
      a byte string meets a unicode string is the identity.
    - The host is a POSIX one ([os.sep] is [/], [os.path] is [posixpath]),
      the branch of the module that does not use the Windows short-name
      facility.
    - The file system is an oracle that is only read; every function that
      touches it returns the list of the calls it made together with its
      result, and an exception ends the computation. *)

From Stdlib Require Import String Ascii.
From Stdlib Require Import List NArith Bool Arith Lia.
From Stdlib Require Import Sorting.Sorted Sorting.Permutation.
Import ListNotations.

Set Implicit Arguments.

(* ================================================================== *)
(** ** Python strings *)

Definition char := N.
Definition str := list char.

(** A string literal as the list of its code units. *)
Definition lit (s : string) : str :=
  map N_of_ascii (list_ascii_of_string s).

Definition ch (a : ascii) : char := N_of_ascii a.

Module Py.

(** [==] on strings. *)
Fixpoint eqb (s t : str) : bool :=
  match s, t with
  | [], [] => true
  | c :: s', d :: t' => N.eqb c d && eqb s' t'
  | _, _ => false
  end.

(** Truth value of a string: non-empty. *)
Definition truthy (s : str) : bool :=
  match s with [] => false | _ :: _ => true end.

(** [c in s] for a one-character [c]. *)
Definition contains (c : char) (s : str) : bool :=
  existsb (N.eqb c) s.

(** [unicode.encode('ascii', errors='replace')]: every code unit outside
    ASCII becomes a question mark. *)
Definition encode_ascii_replace (s : str) : str :=
  map (fun c => if (c <? 128)%N then c else ch "?") s.

(** Whitespace of byte strings: space, tab, line feed, vertical tab,
    form feed, carriage return. *)
Definition isspace (c : char) : bool :=
  N.eqb c 32 || ((9 <=? c)%N && (c <=? 13)%N).

(** Whitespace of unicode strings (the table of CPython 2.7). *)
Definition isspace_unicode (c : char) : bool :=
  isspace c
  || ((28 <=? c)%N && (c <=? 31)%N)
  || existsb (N.eqb c) [133; 160; 5760; 6158; 8232; 8233; 8239; 8287; 12288]%N
  || ((8192 <=? c)%N && (c <=? 8202)%N).

Fixpoint lstrip_with (sp : char -> bool) (s : str) : str :=
  match s with
  | c :: s' => if sp c then lstrip_with sp s' else s
  | [] => []
  end.

Definition rstrip_with (sp : char -> bool) (s : str) : str :=
  rev (lstrip_with sp (rev s)).

Definition strip_with (sp : char -> bool) (s : str) : str :=
  rstrip_with sp (lstrip_with sp s).

(** [str.strip()] and [unicode.strip()]. *)
Definition strip : str -> str := strip_with isspace.
Definition strip_unicode : str -> str := strip_with isspace_unicode.

(** [str.upper()] on an ASCII byte string. *)
Definition upper_char (c : char) : char :=
  if (97 <=? c)%N && (c <=? 122)%N then (c - 32)%N else c.
Definition upper (s : str) : str := map upper_char s.

(** [s.split(sep, 1)]: the part before the first separator and, when
    there is a separator, the part after it (a list of one or two
    strings in Python). *)
Fixpoint split_once (sep : char) (s : str) : str * option str :=
  match s with
  | [] => ([], None)
  | c :: s' =>
      if N.eqb c sep then ([], Some s')
      else let '(t, r) := split_once sep s' in (c :: t, r)
  end.

(** [s.split(sep)]: never the empty list. *)
Fixpoint split (sep : char) (s : str) : list str :=
  match s with
  | [] => [[]]
  | c :: s' =>
      if N.eqb c sep then [] :: split sep s'
      else match split sep s' with
           | t :: r => (c :: t) :: r
           | [] => [[c]]
           end
  end.

(** [s.ljust(n)]. *)
Definition ljust (n : nat) (s : str) : str :=
  s ++ repeat (ch " ") (n - length s).

(** [s[:n]] and [s[n:]] for [n >= 0]. *)
Definition upto (n : nat) (s : str) : str := firstn n s.
Definition from (n : nat) (s : str) : str := skipn n s.

(** [s[-1]]: raises [IndexError] on the empty string ([None] here). *)
Definition last_char (s : str) : option char :=
  match s with [] => None | _ :: _ => Some (last s 0%N) end.

(** [s[:-1]]. *)
Definition but_last (s : str) : str := removelast s.

(** Order of strings: lexicographic on code units. *)
Fixpoint leb (s t : str) : bool :=
  match s, t with
  | [], _ => true
  | _ :: _, [] => false
  | c :: s', d :: t' => (c <? d)%N || (N.eqb c d && leb s' t')
  end.

Fixpoint insert_sorted (x : str) (l : list str) : list str :=
  match l with
  | [] => [x]
  | y :: l' => if leb x y then x :: l else y :: insert_sorted x l'
  end.

(** [sorted(l)] on a list of strings. *)
Definition sorted (l : list str) : list str :=
  fold_right insert_sorted [] l.

End Py.

(* ================================================================== *)
(** ** The name codec *)

(** [string.ascii_letters], [string.digits]. *)
Definition ascii_letters : str :=
  lit "abcdefghijklmnopqrstuvwxyzABCDEFGHIJKLMNOPQRSTUVWXYZ".
Definition digits : str := lit "0123456789".

(** [ALLOWABLE_CHARS = set(string.ascii_letters + string.digits +
    b" !#$%&'()-@^_`{}~")], kept as the list of its members. *)
Definition ALLOWABLE_CHARS : list char :=
  ascii_letters ++ digits ++ lit " !#$%&'()-@^_`{}~".

(** The first statement of [split_dosname]: uppercase, no leading or
    trailing spaces, non-ASCII replaced by question marks. *)
Definition dos_upper (name : str) : str :=
  Py.upper (Py.strip (Py.encode_ascii_replace name)).

(** Trunk and extension before truncation: what comes before and after the
    first dot. *)
Definition trunk_ext (name : str) : str * str :=
  match Py.split_once (ch ".") name with
  | (t, None) => (t, [])
  | (t, Some e) => (t, e)
  end.

Definition split_dosname (name : str) (mark_shortened : bool) : str * str :=
  let name := dos_upper name in
  if Py.eqb name (lit ".") then ([], [])
  else if Py.eqb name (lit "..") then ([], lit ".")
  else
    let '(trunk, ext) := trunk_ext name in
    let strunk := Py.upto 8 trunk in
    let sext := Py.upto 3 ext in
    if mark_shortened then
      let strunk :=
        if negb (Py.eqb strunk trunk) then Py.upto 7 strunk ++ lit "+"
        else strunk in
      let sext :=
        if negb (Py.eqb sext ext) then Py.upto 2 sext ++ lit "+"
        else sext in
      (strunk, sext)
    else (strunk, sext).

Definition join_dosname (trunk ext : str) (padding : bool) : str :=
  let ext :=
    if Py.truthy ext || negb (Py.truthy trunk) then lit "." ++ ext
    else ext in
  if padding then Py.ljust 8 trunk ++ Py.ljust 4 ext
  else trunk ++ ext.

(** Membership in [ALLOWABLE_CHARS]. *)
Definition allowable (c : char) : bool :=
  existsb (N.eqb c) ALLOWABLE_CHARS.

(** [(set(trunk) | set(ext)) - ALLOWABLE_CHARS], as the list of the
    characters of trunk and extension that are not allowable. *)
Definition not_allowable_chars (trunk ext : str) : list char :=
  filter (fun c => negb (allowable c)) (trunk ++ ext).

(** A character of a canonical name: allowable and not a lowercase
    letter. *)
Definition canonical_char (c : char) : bool :=
  allowable c && negb ((97 <=? c)%N && (c <=? 122)%N).

(** Whether a name begins or ends with a space. *)
Definition outer_space (s : str) : bool :=
  match s with
  | [] => false
  | c :: _ => N.eqb c (ch " ") || N.eqb (last s 0%N) (ch " ")
  end.

(** [short_name] on a host without the Windows facility. *)
Definition short_name (dummy_path longname : str) : str * str :=
  split_dosname longname true.

(* ================================================================== *)
(** ** Path normalisation *)

(** [del elements[i]] for an index in range. *)
Definition delete_at (i : nat) (elements : list str) : list str :=
  firstn i elements ++ skipn (S i) elements.

(** The [while] loop of [dos_normpath], on the pair of the list and the
    index [i]; every turn of the loop lowers [len(elements) - i] by one,
    and [fuel] bounds the number of turns. *)
Fixpoint normpath_loop (fuel : nat) (elements : list str) (i : nat)
  : list str :=
  match fuel with
  | O => elements
  | S fuel' =>
      if i <? List.length elements then
        let e := nth i elements [] in
        if Py.eqb e (lit ".") then
          normpath_loop fuel' (delete_at i elements) i
        else if Py.eqb e (lit "..") then
          let elements := delete_at i elements in
          if 0 <? i then
            normpath_loop fuel' (delete_at (i - 1) elements) (i - 1)
          else normpath_loop fuel' elements i
        else normpath_loop fuel' elements (i + 1)
      else elements
  end.

Definition dos_normpath (elements : list str) : list str :=
  normpath_loop (List.length elements) elements 0.

(** What the specification says of [dos_normpath], read from left to
    right over the elements with the elements kept so far: a [.] is
    removed, a [..] is removed together with the last kept element (or
    alone when nothing is kept), anything else is kept. *)
Fixpoint normpath_spec (kept rest : list str) : list str :=
  match rest with
  | [] => kept
  | e :: rest' =>
      if Py.eqb e (lit ".") then normpath_spec kept rest'
      else if Py.eqb e (lit "..") then normpath_spec (removelast kept) rest'
      else normpath_spec (kept ++ [e]) rest'
  end.

(** A real element: neither [.] nor [..]. *)
Definition real_element (e : str) : bool :=
  negb (Py.eqb e (lit ".")) && negb (Py.eqb e (lit "..")).

(* ================================================================== *)
(** ** Wildcards *)

(** The pieces [match_wildcard] puts between [\A] and [\Z]. *)
Inductive re_item : Type :=
| ReDot                (* [.]   : one character other than a newline *)
| ReDotStar            (* [.*]  : any number of such characters *)
| ReEscaped (c : char) (* [re.escape(c)] : the character [c] itself *).

Definition newline : char := 10%N.

(** [re.match] of the compiled expression [\A items \Z] (no flags) at the
    start of [s]: a backtracking match that must consume all of [s]. *)
Fixpoint re_match (items : list re_item) (s : str) : bool :=
  match items with
  | [] => negb (Py.truthy s)
  | ReDot :: items' =>
      match s with
      | c :: s' => negb (N.eqb c newline) && re_match items' s'
      | [] => false
      end
  | ReEscaped a :: items' =>
      match s with
      | c :: s' => N.eqb c a && re_match items' s'
      | [] => false
      end
  | ReDotStar :: items' =>
      (fix star (s : str) : bool :=
         match s with
         | c :: s' => (negb (N.eqb c newline) && star s') || re_match items' s
         | [] => re_match items' []
         end) s
  end.

(** The loop over the mask that builds the regular expression. *)
Definition mask_regexp (mask : str) : list re_item :=
  map (fun c =>
         if N.eqb c (ch "?") then ReDot
         else if N.eqb c (ch "*") then ReDotStar
         else ReEscaped c) mask.

Definition match_wildcard (name mask : str) : bool :=
  re_match (mask_regexp mask) name.

(** The strings a mask generates, when [?] stands for one character that
    satisfies [any], [*] for any number of them, and every other character
    for itself. *)
Inductive generates (any : char -> Prop) : str -> str -> Prop :=
| gen_empty : generates any [] []
| gen_one c mask s :
    any c -> generates any mask s ->
    generates any (ch "?" :: mask) (c :: s)
| gen_many u mask s :
    Forall any u -> generates any mask s ->
    generates any (ch "*" :: mask) (u ++ s)
| gen_self a mask s :
    a <> ch "?" -> a <> ch "*" -> generates any mask s ->
    generates any (a :: mask) (a :: s).

(** The reading of the specification: [?] and [*] stand for any
    character at all. *)
Definition any_char (c : char) : Prop := True.
(** The reading of the code: any character but a newline. *)
Definition not_newline (c : char) : Prop := c <> newline.

(* ================================================================== *)
(** ** File system, exceptions, traces *)

(** Modelled from the spec: the error kinds of the module [..base.error],
    which is not among the sources; section 7 of the specification names
    the three raised here, and [FILE_NOT_FOUND] stands for a kind the
    caller supplies. *)
Inductive basic_error : Type :=
| BAD_FILE_NUMBER | PATH_NOT_FOUND | BAD_FILE_NAME | FILE_NOT_FOUND.

Inductive exn : Type :=
| BASICError (e : basic_error)
| IndexError
| TypeError.

(** The calls made to the host file system. *)
Inductive fs_call : Type :=
| Call_isdir (name : str)
| Call_isfile (name : str)
| Call_listdir (path : str).

(** The state of the host file system, as the answers it gives.
    [fs_listdir] answers [None] where [os.listdir] raises
    [EnvironmentError]. *)
Record filesystem : Type := {
  fs_isdir : str -> bool;
  fs_isfile : str -> bool;
  fs_listdir : str -> option (list str)
}.

Inductive outcome (A : Type) : Type :=
| Returns (a : A)
| Raises (e : exn).
Arguments Raises {A} e.

(** A computation: the calls it made, in order, and how it ended. *)
Definition io (A : Type) : Type := (list fs_call * outcome A)%type.

Definition ret {A} (a : A) : io A := ([], Returns a).
Definition raise {A} (e : exn) : io A := ([], Raises e).
Definition bind {A B} (m : io A) (k : A -> io B) : io B :=
  match m with
  | (l, Returns a) => let '(l', r) := k a in (l ++ l', r)
  | (l, Raises e) => (l, Raises e)
  end.

Notation "x <- m ;; k" := (bind m (fun x => k))
  (at level 61, m at next level, right associativity).

Definition trace {A} (m : io A) : list fs_call := fst m.
Definition result {A} (m : io A) : outcome A := snd m.

(** [posixpath.join] of two components. *)
Definition os_path_join (a b : str) : str :=
  match b with
  | c :: _ =>
      if N.eqb c (ch "/") then b
      else if negb (Py.truthy a) || N.eqb (last a 0%N) (ch "/") then a ++ b
      else a ++ lit "/" ++ b
  | [] =>
      if negb (Py.truthy a) || N.eqb (last a 0%N) (ch "/") then a
      else a ++ lit "/"
  end.

(** A name with a NUL character makes the host calls raise [TypeError]. *)
Definition has_nul (s : str) : bool := Py.contains 0%N s.

(* ================================================================== *)
(** ** Matching names in a directory *)

Section Matching.

Variable fs : filesystem.

(** [os.path.isdir], [os.path.isfile], [os.listdir]. *)
Definition os_path_isdir (name : str) : io bool :=
  ([Call_isdir name],
   if has_nul name then Raises TypeError else Returns (fs_isdir fs name)).

Definition os_path_isfile (name : str) : io bool :=
  ([Call_isfile name],
   if has_nul name then Raises TypeError else Returns (fs_isfile fs name)).

(** [None] is the [EnvironmentError] of the host. *)
Definition os_listdir (path : str) : io (option (list str)) :=
  ([Call_listdir path],
   if has_nul path then Raises TypeError else Returns (fs_listdir fs path)).

(** [try ... except TypeError: return False]. *)
Definition except_TypeError (m : io bool) : io bool :=
  match m with
  | (l, Raises TypeError) => (l, Returns false)
  | _ => m
  end.

Definition istype (path native_name : str) (isdir : bool) : io bool :=
  let name := os_path_join path native_name in
  except_TypeError
    (if isdir then os_path_isdir name else os_path_isfile name).

(** Equality of two (trunk, extension) tuples. *)
Definition dosname_eqb (a b : str * str) : bool :=
  Py.eqb (fst a) (fst b) && Py.eqb (snd a) (snd b).

(** The [for f in all_names] loop of [match_dosname]. *)
Fixpoint scan_names (trunk ext path : str) (isdir : bool)
         (all_names : list str) : io (option str) :=
  match all_names with
  | [] => ret None
  | f :: rest =>
      if dosname_eqb (split_dosname f false) (trunk, ext) then
        b <- istype path f isdir ;;
        if b then ret (Some f) else scan_names trunk ext path isdir rest
      else scan_names trunk ext path isdir rest
  end.

Definition match_dosname (dosname path : str) (isdir : bool)
  : io (option str) :=
  if existsb (fun c => (128 <=? c)%N) dosname then
    (* UnicodeDecodeError *)
    ret None
  else
    b <- istype path dosname isdir ;;
    if b then ret (Some dosname)
    else
      let '(trunk, ext) := split_dosname dosname false in
      listing <- os_listdir path ;;
      match listing with
      | None => ret None
      | Some names => scan_names trunk ext path isdir (Py.sorted names)
      end.

(** [match_filename] from the line [# check if the name exists as-is]
    on, with the name the first lines settled on. *)
Definition match_settled_name (name path : str)
           (name_err : option basic_error) (isdir : bool) : io str :=
  b <- istype path name isdir ;;
  if b then ret name
  else
    let '(trunk, ext) := split_dosname name false in
    match not_allowable_chars trunk ext with
    | _ :: _ => raise (BASICError BAD_FILE_NAME)
    | [] =>
        let dosname := join_dosname trunk ext false in
        fullname <- match_dosname dosname path isdir ;;
        match fullname with
        | Some (c :: f) => ret (c :: f)
        | _ =>
            match name_err with
            | None => ret dosname
            | Some e => raise (BASICError e)
            end
        end
    end.

(** [name_err] is [None] when the caller passes a false value (create a
    new name) and [Some e] when it passes the error to raise. *)
Definition match_filename (name defext path : str)
           (name_err : option basic_error) (isdir : bool) : io str :=
  if Py.truthy defext && negb (Py.contains (ch ".") name) then
    match_settled_name (name ++ lit "." ++ defext) path name_err isdir
  else
    match Py.last_char name with
    | None => raise IndexError
    | Some c =>
        if N.eqb c (ch ".")
           && negb (Py.contains (ch ".") (Py.but_last name)) then
          b <- istype path name isdir ;;
          if b then ret name
          else match_settled_name (Py.but_last name) path name_err isdir
        else match_settled_name name path name_err isdir
    end.

(** The [for e in elements] loop of [native_path_elements]. *)
Fixpoint walk_elements (path_err : option basic_error)
         (path : str) (elements : list str) : io str :=
  match elements with
  | [] => ret path
  | e :: rest =>
      if Py.truthy e then
        found <- match_filename e [] path path_err true ;;
        walk_elements path_err (os_path_join path found) rest
      else walk_elements path_err path rest
  end.

(** The elements of the path below the drive letter and the name after
    the last backslash: the statements of [native_path_elements] from
    [# get path below drive letter] to the call of [dos_normpath]. *)
Definition path_elements (path_without_drive native_cwd : str)
           (join_name : bool) : str * list str :=
  let elements :=
    match path_without_drive with
    | c :: _ =>
        if N.eqb c (ch "\") then Py.split (ch "\") path_without_drive
        else Py.split (ch "/") native_cwd
               ++ Py.split (ch "\") path_without_drive
    | [] => Py.split (ch "/") native_cwd
              ++ Py.split (ch "\") path_without_drive
    end in
  let elements := map Py.strip_unicode elements in
  let '(name, elements) :=
    if join_name || negb (0 <? List.length elements) then ([], elements)
    else (last elements [], removelast elements) in
  (name, dos_normpath elements).

(** The codepage is outside the sources; its conversion is a parameter. *)
Variable str_to_unicode : str -> str.

Definition native_path_elements
           (path_without_drive : str) (path_err : option basic_error)
           (native_root native_cwd : str) (join_name : bool)
  : io (str * str * str) :=
  let path_without_drive := str_to_unicode path_without_drive in
  if Py.contains (ch "/") path_without_drive then
    raise (BASICError BAD_FILE_NUMBER)
  else if negb (Py.truthy native_root) then
    raise (BASICError PATH_NOT_FOUND)
  else
    let '(name, elements) :=
      path_elements path_without_drive native_cwd join_name in
    let path := native_root in
    let baselen :=
      List.length path
      + (if N.eqb (last path 0%N) (ch "/") then 0 else 1) in
    path <- walk_elements path_err path elements ;;
    ret (Py.upto baselen path, Py.from baselen path, name).

End Matching.

(** The call [istype] makes and the answer it gets. *)
Definition istype_call (path native_name : str) (isdir : bool) : fs_call :=
  if isdir then Call_isdir (os_path_join path native_name)
  else Call_isfile (os_path_join path native_name).

Definition istype_answer (fs : filesystem) (path native_name : str)
           (isdir : bool) : bool :=
  let name := os_path_join path native_name in
  if has_nul name then false
  else if isdir then fs_isdir fs name else fs_isfile fs name.

(** An entry of a directory listing that [match_dosname] accepts for the
    pair (trunk, ext): it has that DOS name and is of the kind asked for. *)
Definition entry_matches (fs : filesystem) (trunk ext path : str)
           (isdir : bool) (f : str) : bool :=
  dosname_eqb (split_dosname f false) (trunk, ext)
  && istype_answer fs path f isdir.

(** The order of strings as a relation. *)
Definition str_le (s t : str) : Prop := Py.leb s t = true.

(** The number of dots in a name. *)
Definition dots (s : str) : nat :=
  List.length (filter (N.eqb (ch ".")) s).

(** The first lines of [match_filename], read as a description of the
    name it goes on with: whether the default extension is appended,
    whether the name ends in a single dot, the name the existence probe
    and the split are applied to, and the probe made before it. *)
Definition appends_defext (name defext : str) : bool :=
  Py.truthy defext && negb (Py.contains (ch ".") name).

Definition single_trailing_dot (name : str) : bool :=
  match Py.last_char name with
  | Some c =>
      N.eqb c (ch ".") && negb (Py.contains (ch ".") (Py.but_last name))
  | None => false
  end.

Definition settled_name (name defext : str) : str :=
  if appends_defext name defext then name ++ lit "." ++ defext
  else if single_trailing_dot name then Py.but_last name
  else name.

Definition dotted_probe (path name defext : str) (isdir : bool)
  : list fs_call :=
  if appends_defext name defext then []
  else if single_trailing_dot name then [istype_call path name isdir]
  else [].

(** A name whose characters are allowable, but for one dot at most. *)
Definition tame (s : str) : Prop :=
  (forall c, In c s -> allowable c = true \/ c = ch ".") /\ dots s <= 1.

(** A file system with nothing in it, and the codepage that leaves ASCII
    text as it is. *)
Definition empty_fs : filesystem :=
  {| fs_isdir := fun _ => false;
     fs_isfile := fun _ => false;
     fs_listdir := fun _ => Some [] |}.

Definition ascii_codepage (s : str) : str := s.

(** A directory [dir] holding regular files with the given names. *)
Definition files_fs (dir : str) (names : list str) : filesystem :=
  {| fs_isdir := fun _ => false;
     fs_isfile := fun p =>
       existsb (fun f => Py.eqb p (os_path_join dir f)) names;
     fs_listdir := fun p => if Py.eqb p dir then Some names else None |}.

(* ================================================================== *)
(** ** Names for directory listings *)

(** [filename_from_unicode]: the characters that are neither allowable nor
    a dot give way to question marks. *)
Definition filename_from_unicode (name : str) : str :=
  let name_str := Py.encode_ascii_replace name in
  map (fun c => if allowable c || N.eqb c (ch ".") then c else ch "?")
      name_str.

(** Comparison of two (trunk, extension) tuples: by the trunks, and by the
    extensions when the trunks are equal. *)
Definition dosname_leb (a b : str * str) : bool :=
  if Py.eqb (fst a) (fst b) then Py.leb (snd a) (snd b)
  else Py.leb (fst a) (fst b).

Section Sorting.

Variable A : Type.
Variable leb : A -> A -> bool.

Fixpoint insert_by (x : A) (l : list A) : list A :=
  match l with
  | [] => [x]
  | y :: l' => if leb x y then x :: l else y :: insert_by x l'
  end.

(** [sorted(l)] for the order [leb]. *)
Definition sort_by (l : list A) : list A := fold_right insert_by [] l.

End Sorting.

(** The condition of the list comprehension of [filter_names]: both halves
    of the mask match, and the entry is not a hidden dotfile. *)
Definition listed (trunkmask extmask : str) (entry : str * str) : bool :=
  let '(t, e) := entry in
  match_wildcard t trunkmask && match_wildcard e extmask
  && (Py.truthy t || negb (Py.truthy e) || Py.eqb e (lit ".")).

(** [name.decode(b'ascii')] succeeds on a byte string of ASCII only. *)
Definition decodes_ascii (name : str) : bool :=
  forallb (fun c => (c <? 128)%N) name.

(** [filter_names]; [None] is the [UnicodeDecodeError] of a name in
    [files_list] that is not ASCII. *)
Definition filter_names (path : str) (files_list : list str) (mask : str)
  : option (list (str * str)) :=
  if forallb decodes_ascii files_list then
    let all_files := map (fun name => short_name path name) files_list in
    let '(trunkmask, extmask) := split_dosname mask false in
    Some (sort_by dosname_leb (filter (listed trunkmask extmask) all_files))
  else None.

(** The default mask of [filter_names]. *)
Definition default_mask : str := lit "*.*".

(** The calls a matcher may make in the directory [path] for the kind
    [isdir]: listing it, and probing a name in it for that kind. *)
Definition call_in (path : str) (isdir : bool) (c : fs_call) : Prop :=
  c = Call_listdir path \/ exists x, c = istype_call path x isdir.

Definition is_listdir (c : fs_call) : bool :=
  match c with Call_listdir _ => true | _ => false end.

(** The number of directory listings in a trace. *)
Definition listings (l : list fs_call) : nat :=
  List.length (filter is_listdir l).

(** Whether a character is a lowercase ASCII letter. *)
Definition is_lower (c : char) : bool := (97 <=? c)%N && (c <=? 122)%N.

(* ================================================================== *)
(** * Properties *)

(** ** Strings *)

Lemma eqb_eq (s t : str) : Py.eqb s t = true <-> s = t.
Proof.
  revert t; induction s as [|c s IH]; intros [|d t]; simpl;
    try (split; [discriminate | discriminate]); [tauto|].
  rewrite andb_true_iff, N.eqb_eq, IH.
  split; [intros [-> ->]; reflexivity | intros [= -> ->]; auto].
Qed.

Lemma eqb_refl (s : str) : Py.eqb s s = true.
Proof. apply eqb_eq; reflexivity. Qed.

Lemma eqb_neq (s t : str) : Py.eqb s t = false <-> s <> t.
Proof.
  rewrite <- eqb_eq. destruct (Py.eqb s t); split; congruence.
Qed.

Lemma eqb_upto (n : nat) (s : str) :
  Py.eqb (Py.upto n s) s = (List.length s <=? n).
Proof.
  unfold Py.upto.
  destruct (Nat.leb_spec (List.length s) n) as [H|H].
  - rewrite firstn_all2 by exact H. apply eqb_refl.
  - apply eqb_neq. intros E.
    assert (L : List.length (firstn n s) = List.length s) by (rewrite E; reflexivity).
    rewrite length_firstn in L. lia.
Qed.

Lemma contains_In (c : char) (s : str) : Py.contains c s = true <-> In c s.
Proof.
  unfold Py.contains. rewrite existsb_exists. split.
  - intros [x [Hx E]]. apply N.eqb_eq in E. subst. exact Hx.
  - intros H. exists c. split; [exact H | apply N.eqb_refl].
Qed.

Lemma split_once_no_sep (sep : char) (s : str) :
  ~ In sep s -> Py.split_once sep s = (s, None).
Proof.
  induction s as [|c s IH]; simpl; intros H; [reflexivity|].
  destruct (N.eqb_spec c sep) as [->|_]; [tauto|].
  rewrite IH by tauto. reflexivity.
Qed.

Lemma split_once_first_sep (sep : char) (s e : str) :
  ~ In sep s -> Py.split_once sep (s ++ sep :: e) = (s, Some e).
Proof.
  induction s as [|c s IH]; simpl; intros H.
  - rewrite N.eqb_refl. reflexivity.
  - destruct (N.eqb_spec c sep) as [->|_]; [tauto|].
    rewrite IH by tauto. reflexivity.
Qed.

Lemma lstrip_head (sp : char -> bool) (c : char) (s : str) :
  sp c = false -> Py.lstrip_with sp (c :: s) = c :: s.
Proof. intros H; simpl; rewrite H; reflexivity. Qed.

Lemma strip_with_fixed (sp : char -> bool) (s : str) :
  (forall c s', s = c :: s' -> sp c = false /\ sp (last s 0%N) = false) ->
  Py.strip_with sp s = s.
Proof.
  intros H. destruct s as [|c s']; [reflexivity|].
  destruct (H c s' eq_refl) as [Hc Hl].
  unfold Py.strip_with, Py.rstrip_with.
  rewrite lstrip_head by exact Hc.
  destruct (exists_last (l := c :: s')) as [q [z E]]; [discriminate|].
  rewrite E in *. rewrite last_last in Hl.
  rewrite rev_app_distr.
  change (rev [z] ++ rev q) with (z :: rev q).
  rewrite lstrip_head by exact Hl.
  change (z :: rev q) with (rev [z] ++ rev q).
  rewrite <- rev_app_distr, rev_involutive. reflexivity.
Qed.

(** ** The name codec *)

Lemma canonical_char_facts (c : char) :
  canonical_char c = true ->
  (c <? 128)%N = true /\ Py.upper_char c = c /\ c <> ch "."
  /\ (Py.isspace c = true -> c = ch " ").
Proof.
  unfold canonical_char, allowable. intros H.
  apply andb_true_iff in H. destruct H as [Hin Hup].
  apply existsb_exists in Hin. destruct Hin as [a [Ha E]].
  apply N.eqb_eq in E. subst a.
  assert (All : forallb (fun a => (a <? 128)%N && negb (N.eqb a (ch "."))
                                  && (negb (Py.isspace a) || N.eqb a (ch " ")))
                        ALLOWABLE_CHARS = true) by (vm_compute; reflexivity).
  rewrite forallb_forall in All. specialize (All c Ha).
  apply andb_true_iff in All. destruct All as [All Hsp].
  apply andb_true_iff in All. destruct All as [Hlt Hdot].
  repeat split.
  - exact Hlt.
  - unfold Py.upper_char. apply negb_true_iff in Hup. rewrite Hup. reflexivity.
  - apply negb_true_iff in Hdot. apply N.eqb_neq in Hdot. exact Hdot.
  - intros S. rewrite S in Hsp. simpl in Hsp. apply N.eqb_eq in Hsp. exact Hsp.
Qed.

(** A name made of canonical characters and dots, with no space at
    either end, is left as it is by the first statement of
    [split_dosname]. *)
Lemma dos_upper_fixed (s : str) :
  Forall (fun c => canonical_char c = true \/ c = ch ".") s ->
  outer_space s = false ->
  dos_upper s = s.
Proof.
  intros Hall Hsp. unfold dos_upper.
  assert (Facts : forall c, In c s ->
            (c <? 128)%N = true /\ Py.upper_char c = c
            /\ (Py.isspace c = true -> c = ch " ")).
  { rewrite Forall_forall in Hall. intros c Hc.
    destruct (Hall c Hc) as [H| ->].
    - destruct (canonical_char_facts c H) as [A [B [_ D]]]. auto.
    - repeat split; intros; discriminate. }
  assert (Enc : Py.encode_ascii_replace s = s).
  { unfold Py.encode_ascii_replace. rewrite <- (map_id s) at 2.
    apply map_ext_in. intros c Hc. destruct (Facts c Hc) as [A _].
    rewrite A. reflexivity. }
  assert (Str : Py.strip s = s).
  { apply strip_with_fixed. intros c s' E. subst s.
    simpl in Hsp. apply orb_false_iff in Hsp. destruct Hsp as [H1 H2].
    apply N.eqb_neq in H1. apply N.eqb_neq in H2.
    split.
    - destruct (Py.isspace c) eqn:S; [|reflexivity].
      destruct (Facts c (or_introl eq_refl)) as [_ [_ D]].
      elim H1. apply D. exact S.
    - destruct (Py.isspace (last (c :: s') 0%N)) eqn:S; [|reflexivity].
      assert (I : In (last (c :: s') 0%N) (c :: s'))
        by (destruct (exists_last (l := c :: s')) as [q [z ->]];
            [discriminate | rewrite last_last; apply in_or_app; right; left; reflexivity]).
      destruct (Facts _ I) as [_ [_ D]]. elim H2. apply D. exact S. }
  rewrite Enc, Str. unfold Py.upper. rewrite <- (map_id s) at 2.
  apply map_ext_in. intros c Hc. destruct (Facts c Hc) as [_ [B _]]. exact B.
Qed.

Lemma canonical_no_dot (s : str) :
  forallb canonical_char s = true -> ~ In (ch ".") s.
Proof.
  rewrite forallb_forall. intros H I.
  destruct (canonical_char_facts _ (H _ I)) as [_ [_ [D _]]]. apply D; reflexivity.
Qed.

(** Splitting the join of a trunk and an extension that need no
    truncation, no change of case and no stripping gives them back. *)
Lemma split_join_canonical (trunk ext : str) (mark : bool) :
  List.length trunk <= 8 -> List.length ext <= 3 ->
  forallb canonical_char (trunk ++ ext) = true ->
  outer_space (join_dosname trunk ext false) = false ->
  split_dosname (join_dosname trunk ext false) mark = (trunk, ext).
Proof.
  intros Lt Le Hc Hsp.
  rewrite forallb_app in Hc. apply andb_true_iff in Hc. destruct Hc as [Ht He].
  pose proof (canonical_no_dot _ Ht) as Dt.
  pose proof (canonical_no_dot _ He) as De.
  assert (Fix : dos_upper (join_dosname trunk ext false)
                = join_dosname trunk ext false).
  { apply dos_upper_fixed; [|exact Hsp].
    rewrite forallb_forall in Ht, He.
    unfold join_dosname.
    destruct (Py.truthy ext || negb (Py.truthy trunk));
      apply Forall_forall; intros c Hin;
      repeat (apply in_app_or in Hin; destruct Hin as [Hin|Hin]);
      try (left; auto; fail).
    destruct Hin as [<-|[]]. right; reflexivity. }
  unfold split_dosname. rewrite Fix. clear Fix Hsp.
  unfold join_dosname.
  destruct ext as [|e ext']; destruct trunk as [|t trunk']; simpl Py.truthy; simpl orb.
  - reflexivity.
  - cbv iota. rewrite app_nil_r.
    assert (N1 : Py.eqb (t :: trunk') (lit ".") = false).
    { apply eqb_neq. intros E. apply Dt. rewrite E. left; reflexivity. }
    assert (N2 : Py.eqb (t :: trunk') (lit "..") = false).
    { apply eqb_neq. intros E. apply Dt. rewrite E. left; reflexivity. }
    rewrite N1, N2. unfold trunk_ext. rewrite split_once_no_sep by exact Dt.
    rewrite !eqb_upto.
    replace (List.length (t :: trunk') <=? 8) with true
      by (symmetry; apply Nat.leb_le; exact Lt).
    simpl negb. unfold Py.upto. rewrite firstn_all2 by exact Lt.
    destruct mark; reflexivity.
  - cbv iota. change ([] ++ lit "." ++ e :: ext') with (ch "." :: e :: ext').
    assert (N2 : Py.eqb (ch "." :: e :: ext') (lit "..") = false).
    { apply eqb_neq. intros E. apply De. injection E as E1 E2. left. auto. }
    rewrite N2. simpl Py.eqb at 1.
    replace (Py.eqb (ch "." :: e :: ext') (lit ".")) with false
      by (symmetry; apply eqb_neq; discriminate).
    unfold trunk_ext. rewrite (@split_once_first_sep (ch ".") [] (e :: ext') (fun F => F)
             : Py.split_once (ch ".") (ch "." :: e :: ext') = _).
    rewrite !eqb_upto.
    replace (List.length (e :: ext') <=? 3) with true
      by (symmetry; apply Nat.leb_le; exact Le).
    unfold Py.upto. rewrite (firstn_all2 (n := 3)) by exact Le.
    destruct mark; reflexivity.
  - cbv iota.
    change ((t :: trunk') ++ lit "." ++ e :: ext')
      with ((t :: trunk') ++ ch "." :: e :: ext').
    assert (N1 : Py.eqb ((t :: trunk') ++ ch "." :: e :: ext') (lit ".") = false).
    { apply eqb_neq. destruct trunk'; discriminate. }
    assert (N2 : Py.eqb ((t :: trunk') ++ ch "." :: e :: ext') (lit "..") = false).
    { apply eqb_neq. intros E. apply Dt. injection E as E1 E2. left; auto. }
    rewrite N1, N2. unfold trunk_ext. rewrite split_once_first_sep by exact Dt.
    rewrite !eqb_upto.
    replace (List.length (t :: trunk') <=? 8) with true
      by (symmetry; apply Nat.leb_le; exact Lt).
    replace (List.length (e :: ext') <=? 3) with true
      by (symmetry; apply Nat.leb_le; exact Le).
    unfold Py.upto. rewrite (firstn_all2 (n := 8)) by exact Lt.
    rewrite (firstn_all2 (n := 3)) by exact Le.
    destruct mark; reflexivity.
Qed.

(** C9: [join_dosname("", "")] is the single dot.  The dot is put before
    the extension whenever the extension is non-empty or the trunk is
    empty, and so joining what [split_dosname] makes of ["."] gives ["."]
    again. *)
Theorem join_dosname_empty_is_dot :
  join_dosname [] [] false = lit "."
  /\ (forall trunk ext : str,
         join_dosname trunk ext false =
         match ext, trunk with
         | [], _ :: _ => trunk
         | _, _ => trunk ++ lit "." ++ ext
         end)
  /\ (let '(trunk, ext) := split_dosname (lit ".") false in
      join_dosname trunk ext false) = lit ".".
Proof.
  split; [reflexivity|]. split; [|reflexivity].
  intros [|t trunk] [|e ext]; unfold join_dosname; simpl;
    rewrite ?app_nil_r; reflexivity.
Qed.

(** The closed form of [split_dosname]. *)
Lemma split_dosname_shape (name : str) (mark : bool) :
  split_dosname name mark =
  if Py.eqb (dos_upper name) (lit ".") then ([], [])
  else if Py.eqb (dos_upper name) (lit "..") then ([], lit ".")
  else
    let '(trunk, ext) := trunk_ext (dos_upper name) in
    (if 8 <? List.length trunk then
       if mark then firstn 7 trunk ++ lit "+" else firstn 8 trunk
     else trunk,
     if 3 <? List.length ext then
       if mark then firstn 2 ext ++ lit "+" else firstn 3 ext
     else ext).
Proof.
  unfold split_dosname.
  destruct (Py.eqb (dos_upper name) (lit ".")); [reflexivity|].
  destruct (Py.eqb (dos_upper name) (lit "..")); [reflexivity|].
  destruct (trunk_ext (dos_upper name)) as [trunk ext].
  rewrite !eqb_upto. unfold Py.upto. rewrite !firstn_firstn.
  change (Nat.min 7 8) with 7. change (Nat.min 2 3) with 2.
  rewrite !Nat.ltb_antisym.
  destruct (Nat.leb_spec (List.length trunk) 8) as [Ht|Ht];
    destruct (Nat.leb_spec (List.length ext) 3) as [He|He];
    simpl negb; cbv iota;
    rewrite ?(firstn_all2 (n := 8) trunk) by exact Ht;
    rewrite ?(firstn_all2 (n := 3) ext) by exact He;
    destruct mark; reflexivity.
Qed.

(** C6: [split_dosname] cuts the trunk to 8 and the extension to 3
    characters; with [mark_shortened] the last kept character gives way to
    a plus sign exactly when something was cut off, so that an eight
    character trunk stays as it is and a nine character one becomes seven
    characters and a plus, and a cut extension two characters and a plus. *)
Theorem split_dosname_truncation :
  (forall (name : str) (mark_shortened : bool),
      List.length (fst (split_dosname name mark_shortened)) <= 8
      /\ List.length (snd (split_dosname name mark_shortened)) <= 3)
  /\ (forall (name : str) (mark_shortened : bool),
         split_dosname name mark_shortened =
         if Py.eqb (dos_upper name) (lit ".") then ([], [])
         else if Py.eqb (dos_upper name) (lit "..") then ([], lit ".")
         else
           let '(trunk, ext) := trunk_ext (dos_upper name) in
           (if 8 <? List.length trunk then
              if mark_shortened then firstn 7 trunk ++ lit "+"
              else firstn 8 trunk
            else trunk,
            if 3 <? List.length ext then
              if mark_shortened then firstn 2 ext ++ lit "+"
              else firstn 3 ext
            else ext))
  /\ split_dosname (lit "ABCDEFGH") true = (lit "ABCDEFGH", lit "")
  /\ split_dosname (lit "ABCDEFGH") false = (lit "ABCDEFGH", lit "")
  /\ split_dosname (lit "ABCDEFGHI") true = (lit "ABCDEFG+", lit "")
  /\ split_dosname (lit "ABCDEFGHI") false = (lit "ABCDEFGH", lit "")
  /\ split_dosname (lit "A.BCD") true = (lit "A", lit "BCD")
  /\ split_dosname (lit "A.BCDE") true = (lit "A", lit "BC+").
Proof.
  pose proof split_dosname_shape as Shape.
  split; [|split; [exact Shape | repeat split; reflexivity]].
  intros name mark. rewrite Shape.
  destruct (Py.eqb (dos_upper name) (lit ".")); [simpl; lia|].
  destruct (Py.eqb (dos_upper name) (lit "..")); [simpl; lia|].
  destruct (trunk_ext (dos_upper name)) as [trunk ext].
  destruct (Nat.ltb_spec 8 (List.length trunk)) as [Ht|Ht];
    destruct (Nat.ltb_spec 3 (List.length ext)) as [He|He];
    destruct mark; cbn [fst snd];
    rewrite ?length_app, ?length_firstn;
    change (List.length (lit "+")) with 1; lia.
Qed.

(** ** Path normalisation *)

Lemma delete_at_middle (kept : list str) (e : str) (rest : list str) :
  delete_at (List.length kept) (kept ++ e :: rest) = kept ++ rest.
Proof.
  unfold delete_at. induction kept as [|k kept IH]; simpl.
  - reflexivity.
  - f_equal. exact IH.
Qed.

Lemma delete_at_last_kept (kept rest : list str) :
  0 < List.length kept ->
  delete_at (List.length kept - 1) (kept ++ rest) = removelast kept ++ rest
  /\ List.length kept - 1 = List.length (removelast kept).
Proof.
  intros Hpos.
  destruct (exists_last (l := kept)) as [q [z ->]];
    [intros ->; simpl in Hpos; lia|].
  rewrite removelast_last, length_app. simpl List.length.
  replace (List.length q + 1 - 1) with (List.length q) by lia.
  rewrite <- app_assoc. simpl app. rewrite delete_at_middle. auto.
Qed.

(** The loop, started with enough fuel on a list whose first [i] elements
    are the ones kept so far, ends with what the specification
    describes. *)
Lemma normpath_loop_spec (fuel : nat) :
  forall kept rest : list str,
    List.length rest <= fuel ->
    normpath_loop fuel (kept ++ rest) (List.length kept)
    = normpath_spec kept rest.
Proof.
  induction fuel as [|fuel IH]; intros kept rest Hf.
  - destruct rest; [|simpl in Hf; lia]. simpl. apply app_nil_r.
  - destruct rest as [|e rest].
    + simpl. rewrite app_nil_r, Nat.ltb_irrefl. reflexivity.
    + simpl in Hf. cbn [normpath_loop normpath_spec].
      replace (List.length kept <? List.length (kept ++ e :: rest)) with true
        by (symmetry; apply Nat.ltb_lt; rewrite length_app; simpl; lia).
      rewrite nth_middle, delete_at_middle.
      destruct (Py.eqb e (lit ".")); [apply IH; lia|].
      destruct (Py.eqb e (lit "..")).
      * destruct (Nat.ltb_spec 0 (List.length kept)) as [Hpos|Hz].
        -- destruct (delete_at_last_kept kept rest Hpos) as [-> ->].
           apply IH; lia.
        -- destruct kept; [|simpl in Hz; lia]. simpl removelast.
           apply (IH [] rest). lia.
      * replace (List.length kept + 1) with (List.length (kept ++ [e]))
          by (rewrite length_app; reflexivity).
        replace (kept ++ e :: rest) with ((kept ++ [e]) ++ rest)
          by (rewrite <- app_assoc; reflexivity).
        apply IH; lia.
Qed.

Lemma dos_normpath_spec (elements : list str) :
  dos_normpath elements = normpath_spec [] elements.
Proof.
  unfold dos_normpath.
  apply (@normpath_loop_spec (List.length elements) [] elements).
  apply Nat.le_refl.
Qed.

Lemma Forall_removelast {A} (P : A -> Prop) (l : list A) :
  Forall P l -> Forall P (removelast l).
Proof.
  induction 1 as [|x l Hx Hl IH]; simpl; [constructor|].
  destruct l; [constructor | constructor; [exact Hx | exact IH]].
Qed.

Lemma normpath_spec_real (rest : list str) :
  forall kept, Forall (fun e => real_element e = true) kept ->
               Forall (fun e => real_element e = true) (normpath_spec kept rest).
Proof.
  induction rest as [|e rest IH]; intros kept Hk; simpl; [exact Hk|].
  destruct (Py.eqb e (lit ".")) eqn:E1; [apply IH; exact Hk|].
  destruct (Py.eqb e (lit "..")) eqn:E2.
  - apply IH. apply Forall_removelast. exact Hk.
  - apply IH. apply Forall_app. split; [exact Hk|].
    constructor; [|constructor]. unfold real_element. rewrite E1, E2. reflexivity.
Qed.

Lemma normpath_spec_app (a b : list str) :
  forall kept, normpath_spec kept (a ++ b) = normpath_spec (normpath_spec kept a) b.
Proof.
  induction a as [|e a IH]; intros kept; simpl; [reflexivity|].
  destruct (Py.eqb e (lit ".")); [apply IH|].
  destruct (Py.eqb e (lit "..")); apply IH.
Qed.

(** C4: [dos_normpath] does what the specification says of it, element
    by element: the result holds no [.] and no [..]; a [.] anywhere is
    removed; a [..] after a real element is removed together with it; a
    [..] with nothing before it is dropped.  The elements of [\A\..\B]
    normalise to those of [\B], and resolving [\A\..\B] asks the file
    system nothing. *)
Theorem dos_normpath_dots :
  (forall elements, dos_normpath elements = normpath_spec [] elements)
  /\ (forall elements fuel,
         List.length elements <= fuel ->
         normpath_loop fuel elements 0 = dos_normpath elements)
  /\ (forall elements,
         Forall (fun e => real_element e = true) (dos_normpath elements))
  /\ (forall a b, dos_normpath (a ++ lit "." :: b) = dos_normpath (a ++ b))
  /\ (forall a e b,
         real_element e = true ->
         dos_normpath (a ++ e :: lit ".." :: b) = dos_normpath (a ++ b))
  /\ (forall a b,
         dos_normpath a = [] ->
         dos_normpath (a ++ lit ".." :: b) = dos_normpath b)
  /\ (forall b, dos_normpath (lit ".." :: b) = dos_normpath b)
  /\ dos_normpath (Py.split (ch "\") (lit "\A\..\B"))
     = Py.split (ch "\") (lit "\B")
  /\ (forall fs str_to_unicode path_err native_root native_cwd,
         str_to_unicode (lit "\A\..\B") = lit "\A\..\B" ->
         native_root <> [] ->
         native_path_elements fs str_to_unicode (lit "\A\..\B") path_err
                              native_root native_cwd false
         = ([], Returns (native_root, [], lit "B"))).
Proof.
  split; [exact dos_normpath_spec|].
  split.
  { intros elements fuel Hf. rewrite dos_normpath_spec.
    apply (@normpath_loop_spec fuel [] elements Hf). }
  split.
  { intros elements. rewrite dos_normpath_spec.
    apply normpath_spec_real. constructor. }
  split.
  { intros a b. rewrite !dos_normpath_spec, !normpath_spec_app. reflexivity. }
  split.
  { intros a e b He. rewrite !dos_normpath_spec, !normpath_spec_app.
    unfold real_element in He. apply andb_true_iff in He.
    destruct He as [E1 E2]. apply negb_true_iff in E1, E2.
    cbn [normpath_spec]. rewrite E1, E2.
    change (Py.eqb (lit "..") (lit ".")) with false.
    change (Py.eqb (lit "..") (lit "..")) with true. cbv iota.
    rewrite removelast_last. reflexivity. }
  split.
  { intros a b Ha. rewrite !dos_normpath_spec, normpath_spec_app.
    rewrite <- dos_normpath_spec, Ha. reflexivity. }
  split.
  { intros b. rewrite !dos_normpath_spec. reflexivity. }
  split; [reflexivity|].
  intros fs codec path_err root cwd Hcodec Hroot.
  unfold native_path_elements. rewrite Hcodec.
  change (Py.contains (ch "/") (lit "\A\..\B")) with false. cbv iota.
  destruct root as [|r root]; [congruence|].
  change (path_elements (lit "\A\..\B") cwd false) with (lit "B", [@nil char]).
  cbn [Py.truthy negb walk_elements ret bind app].
  unfold Py.upto, Py.from.
  rewrite firstn_all2 by lia. rewrite skipn_all2 by lia. reflexivity.
Qed.

Lemma dos_normpath_dots_witness :
  dos_normpath ([lit "A"] ++ lit "B" :: lit ".." :: [lit "C"])
  = dos_normpath ([lit "A"] ++ [lit "C"])
  /\ dos_normpath ([lit "A"; lit ".."] ++ lit ".." :: [lit "C"])
     = dos_normpath [lit "C"]
  /\ normpath_loop 7 [lit "A"; lit "."; lit ".."] 0
     = dos_normpath [lit "A"; lit "."; lit ".."]
  /\ native_path_elements empty_fs ascii_codepage (lit "\A\..\B") None
                          (lit "/home") (lit "x") false
     = ([], Returns (lit "/home", [], lit "B")).
Proof.
  destruct dos_normpath_dots as [_ [Hfuel [_ [_ [Hup [Hlead [_ [_ Hres]]]]]]]].
  split; [apply Hup; reflexivity|].
  split; [apply Hlead; reflexivity|].
  split; [apply Hfuel; simpl; lia|].
  apply Hres; [reflexivity | discriminate].
Defined.

(** C8: a forward slash in the path, as the codepage hands it over,
    makes [native_path_elements] raise [BAD_FILE_NUMBER]; without one, an
    empty native root makes it raise [PATH_NOT_FOUND]; in both cases no
    call to the file system has been made.  With a codepage that keeps
    slashes, the condition is a slash in the path given. *)
Theorem native_path_elements_refuses
        (fs : filesystem) (str_to_unicode : str -> str)
        (path_without_drive : str) (path_err : option basic_error)
        (native_root native_cwd : str) (join_name : bool) :
  let call :=
    native_path_elements fs str_to_unicode path_without_drive path_err
                         native_root native_cwd join_name in
  (In (ch "/") (str_to_unicode path_without_drive) ->
   call = ([], Raises (BASICError BAD_FILE_NUMBER)))
  /\ (~ In (ch "/") (str_to_unicode path_without_drive) ->
      native_root = [] ->
      call = ([], Raises (BASICError PATH_NOT_FOUND)))
  /\ ((forall s, In (ch "/") (str_to_unicode s) <-> In (ch "/") s) ->
      (In (ch "/") path_without_drive ->
       call = ([], Raises (BASICError BAD_FILE_NUMBER)))
      /\ (~ In (ch "/") path_without_drive -> native_root = [] ->
          call = ([], Raises (BASICError PATH_NOT_FOUND)))).
Proof.
  intros call.
  assert (A : In (ch "/") (str_to_unicode path_without_drive) ->
              call = ([], Raises (BASICError BAD_FILE_NUMBER))).
  { intros H. apply contains_In in H. unfold call, native_path_elements.
    rewrite H. reflexivity. }
  assert (B : ~ In (ch "/") (str_to_unicode path_without_drive) ->
              native_root = [] ->
              call = ([], Raises (BASICError PATH_NOT_FOUND))).
  { intros H ->. unfold call, native_path_elements.
    destruct (Py.contains (ch "/") (str_to_unicode path_without_drive)) eqn:E;
      [apply contains_In in E; contradiction | reflexivity]. }
  split; [exact A|]. split; [exact B|].
  intros Hcodec. split.
  - intros H. apply A. apply Hcodec. exact H.
  - intros H. apply B. rewrite Hcodec. exact H.
Qed.

Lemma native_path_elements_refuses_witness :
  native_path_elements empty_fs ascii_codepage (lit "A/B") None
                       (lit "/home") (lit "") false
  = ([], Raises (BASICError BAD_FILE_NUMBER))
  /\ native_path_elements empty_fs ascii_codepage (lit "A\B") None
                          [] (lit "") false
     = ([], Raises (BASICError PATH_NOT_FOUND)).
Proof.
  split.
  - apply (native_path_elements_refuses empty_fs ascii_codepage (lit "A/B")
             None (lit "/home") (lit "") false).
    + intros s; reflexivity.
    + simpl; tauto.
  - apply (native_path_elements_refuses empty_fs ascii_codepage (lit "A\B")
             None [] (lit "") false).
    + intros s; reflexivity.
    + intros H. simpl in H.
      repeat (destruct H as [H|H]; [discriminate H|]). exact H.
    + reflexivity.
Defined.

(** ** Wildcards *)

Lemma re_match_dotstar_cons (items : list re_item) (c : char) (s : str) :
  re_match (ReDotStar :: items) (c :: s)
  = (negb (N.eqb c newline) && re_match (ReDotStar :: items) s)
    || re_match items (c :: s).
Proof. reflexivity. Qed.

Lemma re_match_dotstar_nil (items : list re_item) :
  re_match (ReDotStar :: items) [] = re_match items [].
Proof. reflexivity. Qed.

(** [.*] followed by [items] matches [s] when [s] is a run of characters
    other than newlines followed by a match of [items]. *)
Lemma re_match_dotstar (items : list re_item) (s : str) :
  re_match (ReDotStar :: items) s = true
  <-> exists u v, s = u ++ v /\ Forall not_newline u
                  /\ re_match items v = true.
Proof.
  induction s as [|c s IH].
  - rewrite re_match_dotstar_nil. split.
    + intros H. exists [], []. repeat split; [constructor | exact H].
    + intros [u [v [E [_ H]]]]. symmetry in E.
      apply app_eq_nil in E. destruct E as [_ ->]. exact H.
  - rewrite re_match_dotstar_cons, orb_true_iff, andb_true_iff, negb_true_iff,
      N.eqb_neq, IH.
    split.
    + intros [[Hc [u [v [-> [Hu Hv]]]]] | H].
      * exists (c :: u), v. repeat split; [constructor; assumption | exact Hv].
      * exists [], (c :: s). repeat split; [constructor | exact H].
    + intros [u [v [E [Hu Hv]]]]. destruct u as [|d u].
      * right. simpl in E. rewrite E. exact Hv.
      * left. simpl in E. injection E as <- ->.
        inversion Hu as [|? ? Hd Hu']; subst.
        split; [exact Hd | exists u, v; auto].
Qed.

Lemma match_wildcard_cons (name : str) (c : char) (mask : str) :
  match_wildcard name (c :: mask)
  = re_match ((if N.eqb c (ch "?") then ReDot
               else if N.eqb c (ch "*") then ReDotStar
               else ReEscaped c) :: mask_regexp mask) name.
Proof. reflexivity. Qed.

Lemma generates_match (mask name : str) :
  generates not_newline mask name -> match_wildcard name mask = true.
Proof.
  induction 1 as [|c mask s Hc _ IH|u mask s Hu _ IH|a mask s Hq Hs _ IH].
  - reflexivity.
  - rewrite match_wildcard_cons. change (N.eqb (ch "?") (ch "?")) with true.
    cbn [re_match]. apply andb_true_iff. split; [|exact IH].
    apply negb_true_iff, N.eqb_neq. exact Hc.
  - rewrite match_wildcard_cons. change (N.eqb (ch "*") (ch "?")) with false.
    change (N.eqb (ch "*") (ch "*")) with true. cbv iota.
    apply re_match_dotstar. exists u, s. auto.
  - rewrite match_wildcard_cons.
    apply N.eqb_neq in Hq. apply N.eqb_neq in Hs. rewrite Hq, Hs.
    cbn [re_match]. rewrite N.eqb_refl. exact IH.
Qed.

Lemma match_generates (mask : str) :
  forall name, match_wildcard name mask = true ->
               generates not_newline mask name.
Proof.
  induction mask as [|c mask IH]; intros name H.
  - destruct name; [constructor | discriminate H].
  - rewrite match_wildcard_cons in H.
    destruct (N.eqb_spec c (ch "?")) as [->|Hq].
    + destruct name as [|d name]; [discriminate H|].
      cbn [re_match] in H. apply andb_true_iff in H. destruct H as [Hd H].
      apply negb_true_iff, N.eqb_neq in Hd.
      constructor; [exact Hd | apply IH; exact H].
    + destruct (N.eqb_spec c (ch "*")) as [->|Hs].
      * apply re_match_dotstar in H. destruct H as [u [v [-> [Hu Hv]]]].
        constructor; [exact Hu | apply IH; exact Hv].
      * destruct name as [|d name]; [discriminate H|].
        cbn [re_match] in H. apply andb_true_iff in H. destruct H as [Hd H].
        apply N.eqb_eq in Hd. subst d.
        constructor; [exact Hq | exact Hs | apply IH; exact H].
Qed.

(** C7, as amended: [match_wildcard] holds exactly of the names the mask
    generates as a whole, where [?] stands for one character other than a
    newline, [*] for any number of characters other than newlines (none
    included), and every other character of the mask for itself, case
    and all; the empty mask matches the empty name only. *)
Theorem match_wildcard_generates :
  (forall name mask : str,
      match_wildcard name mask = true <-> generates not_newline mask name)
  /\ (forall name : str, match_wildcard name [] = true <-> name = [])
  /\ match_wildcard (lit "README") (lit "*") = true
  /\ match_wildcard (lit "") (lit "*") = true
  /\ match_wildcard (lit "AB") (lit "A?") = true
  /\ match_wildcard (lit "ABC") (lit "A?") = false
  /\ match_wildcard (lit "ab") (lit "AB") = false
  /\ match_wildcard (lit "XABY") (lit "AB") = false.
Proof.
  split.
  { intros name mask. split; [apply match_generates | apply generates_match]. }
  split.
  { intros name. destruct name; unfold match_wildcard; simpl;
      split; intros H; try reflexivity; discriminate H. }
  repeat split; reflexivity.
Qed.

Lemma match_wildcard_generates_witness :
  match_wildcard (lit "AB") (lit "A?") = true.
Proof.
  apply (proj1 match_wildcard_generates (lit "AB") (lit "A?")).
  apply (@gen_self not_newline (ch "A") (lit "?") (lit "B"));
    [discriminate | discriminate |].
  apply (@gen_one not_newline (ch "B") [] []); [discriminate | constructor].
Defined.

(** C7 as stated fails on a newline: the specification lets [?] (and [*])
    stand for it, the regular expression does not. *)
Lemma match_wildcard_newline :
  generates any_char (lit "?") [newline]
  /\ match_wildcard [newline] (lit "?") = false
  /\ generates any_char (lit "A*") (lit "A" ++ [newline])
  /\ match_wildcard (lit "A" ++ [newline]) (lit "A*") = false.
Proof.
  split; [apply (@gen_one any_char newline [] []); [exact I | constructor]|].
  split; [reflexivity|].
  split; [|reflexivity].
  apply (@gen_self any_char (ch "A") (lit "*") [newline]);
    [discriminate | discriminate |].
  apply (@gen_many any_char [newline] [] []); [|constructor].
  constructor; [exact I | constructor].
Qed.

(** ** Probing the file system *)

Lemma istype_unfold (fs : filesystem) (path native_name : str) (isdir : bool) :
  istype fs path native_name isdir
  = ([istype_call path native_name isdir],
     Returns (istype_answer fs path native_name isdir)).
Proof.
  unfold istype, istype_call, istype_answer, os_path_isdir, os_path_isfile,
    except_TypeError.
  destruct isdir; destruct (has_nul (os_path_join path native_name));
    reflexivity.
Qed.

Lemma istype_result (fs : filesystem) (path native_name : str)
      (isdir b : bool) :
  result (istype fs path native_name isdir) = Returns b
  <-> istype_answer fs path native_name isdir = b.
Proof.
  rewrite istype_unfold. unfold result. simpl. split; congruence.
Qed.

Lemma istype_trace (fs : filesystem) (path native_name : str) (isdir : bool) :
  trace (istype fs path native_name isdir)
  = [istype_call path native_name isdir].
Proof. rewrite istype_unfold. reflexivity. Qed.

Lemma bind_istype {B} (fs : filesystem) (path native_name : str)
      (isdir : bool) (k : bool -> io B) :
  bind (istype fs path native_name isdir) k
  = (istype_call path native_name isdir
       :: trace (k (istype_answer fs path native_name isdir)),
     result (k (istype_answer fs path native_name isdir))).
Proof.
  rewrite istype_unfold. unfold bind, trace, result.
  destruct (k (istype_answer fs path native_name isdir)). reflexivity.
Qed.

(** The loop over the listing returns the first entry that matches, and
    never raises. *)
Lemma scan_names_result (fs : filesystem) (trunk ext path : str)
      (isdir : bool) (all_names : list str) :
  result (scan_names fs trunk ext path isdir all_names)
  = Returns (find (entry_matches fs trunk ext path isdir) all_names).
Proof.
  induction all_names as [|f rest IH]; [reflexivity|].
  cbn [scan_names find]. unfold entry_matches at 1.
  destruct (dosname_eqb (split_dosname f false) (trunk, ext)); cbn [andb].
  - rewrite bind_istype. cbn [result snd].
    destruct (istype_answer fs path f isdir); [reflexivity | exact IH].
  - exact IH.
Qed.

Lemma result_bind {A B} (m : io A) (k : A -> io B) :
  result (bind m k)
  = match result m with
    | Returns a => result (k a)
    | Raises e => Raises e
    end.
Proof.
  destruct m as [l [a|e]]; unfold bind, result; simpl; [|reflexivity].
  destruct (k a); reflexivity.
Qed.

Lemma match_dosname_result (fs : filesystem) (dosname path : str)
      (isdir : bool) :
  result (match_dosname fs dosname path isdir)
  = if existsb (fun c => (128 <=? c)%N) dosname then Returns None
    else if istype_answer fs path dosname isdir then Returns (Some dosname)
    else if has_nul path then Raises TypeError
    else match fs_listdir fs path with
         | None => Returns None
         | Some names =>
             Returns (find (entry_matches fs (fst (split_dosname dosname false))
                                          (snd (split_dosname dosname false))
                                          path isdir)
                           (Py.sorted names))
         end.
Proof.
  unfold match_dosname.
  destruct (existsb (fun c => (128 <=? c)%N) dosname); [reflexivity|].
  rewrite bind_istype. cbn [result snd].
  destruct (istype_answer fs path dosname isdir); [reflexivity|].
  destruct (split_dosname dosname false) as [trunk ext]. cbn [fst snd].
  rewrite result_bind. unfold os_listdir. cbn [result snd].
  destruct (has_nul path); [reflexivity|].
  destruct (fs_listdir fs path) as [names|]; [|reflexivity].
  apply scan_names_result.
Qed.

(** How [match_filename] ends once the name is settled: with a name, with
    the error of the character check, with the error the caller asked
    for, or with the [TypeError] of a listing whose path holds a NUL. *)
Lemma match_settled_name_result (fs : filesystem) (name path : str)
      (name_err : option basic_error) (isdir : bool) :
  match result (match_settled_name fs name path name_err isdir) with
  | Returns _ => True
  | Raises (BASICError e) =>
      (e = BAD_FILE_NAME
       /\ istype_answer fs path name isdir = false
       /\ not_allowable_chars (fst (split_dosname name false))
                              (snd (split_dosname name false)) <> [])
      \/ (name_err = Some e
          /\ not_allowable_chars (fst (split_dosname name false))
                                 (snd (split_dosname name false)) = [])
  | Raises IndexError => False
  | Raises TypeError => has_nul path = true
  end.
Proof.
  unfold match_settled_name. rewrite bind_istype. cbn [result snd].
  destruct (istype_answer fs path name isdir); [exact I|].
  destruct (split_dosname name false) as [trunk ext]. cbn [fst snd].
  destruct (not_allowable_chars trunk ext) as [|c bad] eqn:Bad.
  - rewrite result_bind, match_dosname_result.
    destruct (existsb (fun c => (128 <=? c)%N) (join_dosname trunk ext false));
      [destruct name_err; simpl; auto|].
    destruct (istype_answer fs path (join_dosname trunk ext false) isdir).
    { destruct (join_dosname trunk ext false); [|exact I].
      destruct name_err; simpl; auto. }
    destruct (has_nul path); [reflexivity|].
    destruct (fs_listdir fs path) as [names|];
      [|destruct name_err; simpl; auto].
    destruct (find (entry_matches fs
                      (fst (split_dosname (join_dosname trunk ext false) false))
                      (snd (split_dosname (join_dosname trunk ext false) false))
                      path isdir) (Py.sorted names)) as [[|d f]|];
      try exact I; destruct name_err; simpl; auto.
  - simpl. left. repeat split. discriminate.
Qed.

(** C10: with an empty name and an empty default extension,
    [match_filename] raises [IndexError] at [name[-1]], before any call to
    the file system; with a name or a default extension that is not
    empty it never does. *)
Theorem match_filename_index_error :
  (forall fs path name_err isdir,
      match_filename fs [] [] path name_err isdir = ([], Raises IndexError))
  /\ (forall fs name defext path name_err isdir,
         result (match_filename fs name defext path name_err isdir)
         = Raises IndexError
         <-> name = [] /\ defext = []).
Proof.
  split; [reflexivity|].
  intros fs name defext path name_err isdir. split.
  - unfold match_filename.
    destruct (Py.truthy defext && negb (Py.contains (ch ".") name)) eqn:D.
    + intros H.
      pose proof (match_settled_name_result fs (name ++ lit "." ++ defext)
                    path name_err isdir) as R.
      rewrite H in R. contradiction.
    + destruct name as [|c name].
      * destruct defext; [auto | discriminate D].
      * cbn [Py.last_char].
        destruct (N.eqb (last (c :: name) 0%N) (ch ".")
                  && negb (Py.contains (ch ".") (Py.but_last (c :: name)))).
        -- rewrite bind_istype. cbn [result snd].
           destruct (istype_answer fs path (c :: name) isdir);
             [discriminate|].
           intros H.
           pose proof (match_settled_name_result fs (Py.but_last (c :: name))
                         path name_err isdir) as R.
           rewrite H in R. contradiction.
        -- intros H.
           pose proof (match_settled_name_result fs (c :: name)
                         path name_err isdir) as R.
           rewrite H in R. contradiction.
  - intros [-> ->]. reflexivity.
Qed.

Lemma match_filename_index_error_witness :
  result (match_filename empty_fs [] [] (lit "/d") None false)
  = Raises IndexError.
Proof.
  apply (proj2 match_filename_index_error empty_fs [] [] (lit "/d") None false).
  split; reflexivity.
Defined.

(** C3: where the probe for ["FOO."] fails and the probe for ["FOO"]
    succeeds, [match_filename] of ["FOO."] returns ["FOO"], whatever the
    default extension and the error asked for: it makes the two probes in
    that order and nothing else. *)
Theorem match_filename_trailing_dot
        (fs : filesystem) (defext path : str)
        (name_err : option basic_error) (isdir : bool) :
  result (istype fs path (lit "FOO.") isdir) = Returns false ->
  result (istype fs path (lit "FOO") isdir) = Returns true ->
  result (match_filename fs (lit "FOO.") defext path name_err isdir)
  = Returns (lit "FOO")
  /\ trace (match_filename fs (lit "FOO.") defext path name_err isdir)
     = trace (istype fs path (lit "FOO.") isdir)
       ++ trace (istype fs path (lit "FOO") isdir).
Proof.
  intros Hdot Hplain. apply istype_result in Hdot, Hplain.
  unfold match_filename.
  change (Py.contains (ch ".") (lit "FOO.")) with true.
  rewrite andb_false_r.
  change (Py.last_char (lit "FOO.")) with (Some (ch ".")).
  change (Py.but_last (lit "FOO.")) with (lit "FOO").
  change (N.eqb (ch ".") (ch ".") && negb (Py.contains (ch ".") (lit "FOO")))
    with true.
  cbv iota. rewrite bind_istype, Hdot. unfold match_settled_name.
  rewrite bind_istype, Hplain, !istype_trace. split; reflexivity.
Qed.

Lemma match_filename_trailing_dot_witness :
  result (match_filename (files_fs (lit "/d") [lit "FOO"]) (lit "FOO.") []
                         (lit "/d") (Some FILE_NOT_FOUND) false)
  = Returns (lit "FOO").
Proof.
  apply (match_filename_trailing_dot (files_fs (lit "/d") [lit "FOO"]) []
           (lit "/d") (Some FILE_NOT_FOUND) false); reflexivity.
Defined.

(** ** The order of a sorted listing *)

Lemma leb_refl (s : str) : Py.leb s s = true.
Proof.
  induction s as [|c s IH]; simpl; [reflexivity|].
  rewrite N.eqb_refl, IH. apply orb_true_r.
Qed.

Lemma leb_total (s t : str) : Py.leb s t = false -> Py.leb t s = true.
Proof.
  revert t; induction s as [|c s IH]; intros [|d t]; simpl;
    try discriminate; try reflexivity.
  intros H. apply orb_false_iff in H. destruct H as [Hlt H].
  apply N.ltb_ge in Hlt.
  destruct (N.eqb_spec c d) as [->|Hne].
  - simpl in H. rewrite N.eqb_refl, (IH t H). apply orb_true_r.
  - replace (d <? c)%N with true; [reflexivity|].
    symmetry. apply N.ltb_lt. lia.
Qed.

Lemma leb_cons (c d : char) (s t : str) :
  Py.leb (c :: s) (d :: t) = true
  <-> (c < d)%N \/ (c = d /\ Py.leb s t = true).
Proof.
  simpl. rewrite orb_true_iff, andb_true_iff, N.ltb_lt, N.eqb_eq. tauto.
Qed.

Lemma leb_trans (s t u : str) :
  Py.leb s t = true -> Py.leb t u = true -> Py.leb s u = true.
Proof.
  revert t u; induction s as [|c s IH]; intros [|d t] [|e u];
    try discriminate; try reflexivity.
  rewrite !leb_cons. intros [H1|[H1 L1]] [H2|[H2 L2]].
  - left. lia.
  - left. lia.
  - left. lia.
  - right. split; [lia | exact (IH t u L1 L2)].
Qed.

Lemma leb_antisym (s t : str) :
  Py.leb s t = true -> Py.leb t s = true -> s = t.
Proof.
  revert t; induction s as [|c s IH]; intros [|d t];
    try discriminate; try reflexivity.
  rewrite !leb_cons. intros [H1|[H1 L1]] [H2|[H2 L2]]; try lia.
  subst d. f_equal. exact (IH t L1 L2).
Qed.

Lemma insert_sorted_perm (x : str) (l : list str) :
  Permutation (x :: l) (Py.insert_sorted x l).
Proof.
  induction l as [|y l IH]; simpl; [apply Permutation_refl|].
  destruct (Py.leb x y); [apply Permutation_refl|].
  apply perm_trans with (y :: x :: l); [apply perm_swap|].
  apply perm_skip. exact IH.
Qed.

Lemma insert_sorted_sorted (x : str) (l : list str) :
  StronglySorted str_le l -> StronglySorted str_le (Py.insert_sorted x l).
Proof.
  induction 1 as [|y l Hl IH Hy]; simpl.
  - constructor; constructor.
  - destruct (Py.leb x y) eqn:E.
    + constructor; [constructor; assumption|].
      constructor; [exact E|].
      apply Forall_impl with (P := str_le y); [|exact Hy].
      intros z Hz. exact (leb_trans x y z E Hz).
    + constructor; [exact IH|].
      apply (Permutation_Forall (insert_sorted_perm x l)).
      constructor; [apply leb_total; exact E | exact Hy].
Qed.

Lemma sorted_perm (l : list str) : Permutation l (Py.sorted l).
Proof.
  induction l as [|x l IH]; simpl; [constructor|].
  apply perm_trans with (x :: Py.sorted l);
    [apply perm_skip; exact IH | apply insert_sorted_perm].
Qed.

Lemma sorted_sorted (l : list str) : StronglySorted str_le (Py.sorted l).
Proof.
  induction l as [|x l IH]; simpl; [constructor|].
  apply insert_sorted_sorted. exact IH.
Qed.

Lemma sorted_In (l : list str) (f : str) : In f (Py.sorted l) <-> In f l.
Proof.
  split; apply Permutation_in;
    [apply Permutation_sym|]; apply sorted_perm.
Qed.

(** The first element of a sorted list that satisfies a test is the least
    one that does. *)
Lemma find_sorted_least (p : str -> bool) (l : list str) (f : str) :
  StronglySorted str_le l ->
  find p l = Some f ->
  forall g, In g l -> p g = true -> Py.leb f g = true.
Proof.
  induction 1 as [|y l Hl IH Hy]; simpl; [discriminate|].
  destruct (p y) eqn:Py.
  - intros [= <-] g [<-|Hg] _; [apply leb_refl|].
    rewrite Forall_forall in Hy. exact (Hy g Hg).
  - intros Hf g [<-|Hg] Hp; [congruence|]. exact (IH Hf g Hg Hp).
Qed.

Lemma dosname_eqb_eq (a b : str * str) : dosname_eqb a b = true <-> a = b.
Proof.
  unfold dosname_eqb. rewrite andb_true_iff, !eqb_eq.
  destruct a, b; simpl. split; [intros [-> ->]; reflexivity|].
  intros [= -> ->]. auto.
Qed.

Lemma entry_matches_spec (fs : filesystem) (trunk ext path : str)
      (isdir : bool) (f : str) :
  entry_matches fs trunk ext path isdir f = true
  <-> split_dosname f false = (trunk, ext)
      /\ istype_answer fs path f isdir = true.
Proof.
  unfold entry_matches. rewrite andb_true_iff, dosname_eqb_eq. tauto.
Qed.

(** The first element of a list that passes a test, by its place in the
    list. *)
Lemma find_first {A} (p : A -> bool) (l : list A) (f : A) :
  find p l = Some f
  <-> exists pre post,
        l = pre ++ f :: post /\ p f = true
        /\ forall g, In g pre -> p g = false.
Proof.
  induction l as [|x l IH]; simpl.
  - split; [discriminate|]. intros [pre [post [E _]]].
    destruct pre; discriminate E.
  - destruct (p x) eqn:Px.
    + split.
      * intros [= <-]. exists [], l. repeat split; [exact Px | intros g []].
      * intros [pre [post [E [Pf Hpre]]]]. destruct pre as [|y pre].
        -- injection E as -> _. reflexivity.
        -- injection E as -> _. rewrite (Hpre y (or_introl eq_refl)) in Px.
           discriminate Px.
    + rewrite IH. split.
      * intros [pre [post [-> [Pf Hpre]]]]. exists (x :: pre), post.
        repeat split; [exact Pf|]. intros g [<-|Hg]; auto.
      * intros [pre [post [E [Pf Hpre]]]]. destruct pre as [|y pre].
        -- injection E as -> _. congruence.
        -- injection E as -> ->. exists pre, post.
           repeat split; [exact Pf|]. intros g Hg. apply Hpre. right. exact Hg.
Qed.

(** C5: in a directory that the host lists, with entries ["Notes.txt"] and
    ["notes.TXT"], where the probe for ["NOTES.TXT"] itself fails,
    [match_dosname] of ["NOTES.TXT"] returns the first entry of the sorted
    listing whose DOS name is (NOTES, TXT) and which is of the kind asked
    for: no entry before it in the sorted listing is such an entry, and it
    is the least such entry in the order of strings.  It returns [None]
    exactly when the directory has no such entry, it never raises, and it
    returns ["Notes.txt"] when the two entries named are the only ones
    with that DOS name and ["Notes.txt"] is of the kind asked for. *)
Theorem match_dosname_first_sorted
        (fs : filesystem) (path : str) (isdir : bool) (names : list str) :
  has_nul path = false ->
  fs_listdir fs path = Some names ->
  In (lit "Notes.txt") names ->
  In (lit "notes.TXT") names ->
  result (istype fs path (lit "NOTES.TXT") isdir) = Returns false ->
  let matching := fun f : str =>
    split_dosname f false = (lit "NOTES", lit "TXT")
    /\ result (istype fs path f isdir) = Returns true in
  let r := result (match_dosname fs (lit "NOTES.TXT") path isdir) in
  (forall f,
      r = Returns (Some f)
      <-> exists before after,
            Py.sorted names = before ++ f :: after /\ matching f
            /\ forall g, In g before -> ~ matching g)
  /\ (forall f,
         r = Returns (Some f)
         <-> In f names /\ matching f
             /\ forall g, In g names -> matching g -> Py.leb f g = true)
  /\ (r = Returns None <-> forall g, In g names -> ~ matching g)
  /\ (exists found, r = Returns found)
  /\ (result (istype fs path (lit "Notes.txt") isdir) = Returns true ->
      (forall g, In g names -> matching g ->
                 g = lit "Notes.txt" \/ g = lit "notes.TXT") ->
      r = Returns (Some (lit "Notes.txt"))).
Proof.
  intros Hnul Hlist Hin1 Hin2 Hexact matching r.
  apply istype_result in Hexact.
  set (matches := entry_matches fs (lit "NOTES") (lit "TXT") path isdir).
  assert (R : r = Returns (find matches (Py.sorted names))).
  { unfold r. rewrite match_dosname_result.
    change (existsb (fun c => (128 <=? c)%N) (lit "NOTES.TXT")) with false.
    rewrite Hexact, Hnul, Hlist. reflexivity. }
  assert (M : forall g, matches g = true <-> matching g).
  { intros g. unfold matches, matching.
    rewrite entry_matches_spec, istype_result. tauto. }
  assert (Mf : forall g, matches g = false <-> ~ matching g).
  { intros g. rewrite <- M. destruct (matches g); split; congruence. }
  assert (Least : forall f,
             find matches (Py.sorted names) = Some f
             <-> In f names /\ matches f = true
                 /\ forall g, In g names -> matches g = true ->
                              Py.leb f g = true).
  { intros f. split.
    - intros Hf. destruct (find_some _ _ Hf) as [Hin Hm].
      split; [apply sorted_In; exact Hin|]. split; [exact Hm|].
      intros g Hg Hp.
      apply (find_sorted_least matches (sorted_sorted names) Hf);
        [apply sorted_In; exact Hg | exact Hp].
    - intros [Hin [Hm Hleast]].
      destruct (find matches (Py.sorted names)) as [f'|] eqn:Hf.
      + destruct (find_some _ _ Hf) as [Hin' Hm'].
        f_equal. apply leb_antisym.
        * apply (find_sorted_least matches (sorted_sorted names) Hf);
            [apply sorted_In; exact Hin | exact Hm].
        * apply Hleast; [apply sorted_In; exact Hin' | exact Hm'].
      + pose proof (@find_none _ matches (Py.sorted names) Hf f) as N.
        rewrite N in Hm; [discriminate | apply sorted_In; exact Hin]. }
  assert (LeastP : forall f,
             r = Returns (Some f)
             <-> In f names /\ matching f
                 /\ forall g, In g names -> matching g -> Py.leb f g = true).
  { intros f. rewrite R. split.
    - intros [= Hf]. apply Least in Hf. destruct Hf as [Hin [Hm Hl]].
      split; [exact Hin|]. split; [apply M; exact Hm|].
      intros g Hg Hp. apply Hl; [exact Hg | apply M; exact Hp].
    - intros [Hin [Hm Hl]]. f_equal. apply Least.
      split; [exact Hin|]. split; [apply M; exact Hm|].
      intros g Hg Hp. apply Hl; [exact Hg | apply M; exact Hp]. }
  split; [|split; [exact LeastP|split; [|split]]].
  - intros f. rewrite R. split.
    + intros [= Hf]. apply find_first in Hf.
      destruct Hf as [pre [post [E [Pf Hpre]]]]. exists pre, post.
      split; [exact E|]. split; [apply M; exact Pf|].
      intros g Hg. apply Mf. apply Hpre. exact Hg.
    + intros [pre [post [E [Pf Hpre]]]]. f_equal. apply find_first.
      exists pre, post. split; [exact E|]. split; [apply M; exact Pf|].
      intros g Hg. apply Mf. apply Hpre. exact Hg.
  - rewrite R. split.
    + intros [= Hf] g Hg. apply Mf.
      apply (@find_none _ matches (Py.sorted names) Hf g).
      apply sorted_In. exact Hg.
    + intros Hnone.
      destruct (find matches (Py.sorted names)) as [f|] eqn:Hf; [|reflexivity].
      destruct (find_some _ _ Hf) as [Hin Hm].
      apply (proj1 (sorted_In names f)) in Hin. apply (proj1 (M f)) in Hm.
      elim (Hnone f Hin Hm).
  - rewrite R. eexists. reflexivity.
  - intros Hkind Honly. apply LeastP.
    split; [exact Hin1|]. split; [split; [reflexivity | exact Hkind]|].
    intros g Hg Hm. destruct (Honly g Hg Hm) as [->| ->]; reflexivity.
Qed.

Lemma match_dosname_first_sorted_witness :
  result (match_dosname
            (files_fs (lit "/d") [lit "notes.TXT"; lit "README"; lit "Notes.txt"])
            (lit "NOTES.TXT") (lit "/d") false)
  = Returns (Some (lit "Notes.txt")).
Proof.
  refine (proj2 (proj2 (proj2 (proj2
            (@match_dosname_first_sorted
               (files_fs (lit "/d")
                         [lit "notes.TXT"; lit "README"; lit "Notes.txt"])
               (lit "/d") false
               [lit "notes.TXT"; lit "README"; lit "Notes.txt"]
               _ _ _ _ _)))) _ _).
  - reflexivity.
  - reflexivity.
  - simpl; tauto.
  - simpl; tauto.
  - reflexivity.
  - reflexivity.
  - intros g [<-|[<-|[<-|[]]]] [Hs _];
      [right; reflexivity | discriminate Hs | left; reflexivity].
Defined.

(** ** Allowable characters *)

Lemma allowable_facts (c : char) :
  allowable c = true ->
  allowable (Py.upper_char c) = true /\ (c <? 128)%N = true /\ c <> ch ".".
Proof.
  unfold allowable at 1. intros H.
  apply existsb_exists in H. destruct H as [a [Ha E]].
  apply N.eqb_eq in E. subst a.
  assert (All : forallb (fun a => allowable (Py.upper_char a)
                                  && (a <? 128)%N && negb (N.eqb a (ch ".")))
                        ALLOWABLE_CHARS = true) by (vm_compute; reflexivity).
  rewrite forallb_forall in All. specialize (All c Ha).
  apply andb_true_iff in All. destruct All as [All Hdot].
  apply andb_true_iff in All. destruct All as [Hup Hlt].
  apply negb_true_iff, N.eqb_neq in Hdot. auto.
Qed.

Lemma dots_app (a b : str) : dots (a ++ b) = dots a + dots b.
Proof. unfold dots. rewrite filter_app, length_app. reflexivity. Qed.

Lemma dots_cons (c : char) (s : str) :
  dots (c :: s) = (if N.eqb (ch ".") c then 1 else 0) + dots s.
Proof. unfold dots. cbn [filter]. destruct (N.eqb (ch ".") c); reflexivity. Qed.

Lemma dots_zero (s : str) : dots s = 0 <-> ~ In (ch ".") s.
Proof.
  induction s as [|c s IH]; [simpl; tauto|].
  rewrite dots_cons. simpl In.
  destruct (N.eqb_spec (ch ".") c) as [E|E].
  - split; [discriminate | intros H; elim H; left; auto].
  - simpl. rewrite IH. split; [intros H [F|F]; auto | intros H F; apply H; auto].
Qed.

Lemma dots_rev (s : str) : dots (rev s) = dots s.
Proof.
  induction s as [|c s IH]; [reflexivity|].
  simpl rev. rewrite dots_app, IH, !dots_cons.
  change (dots []) with 0. lia.
Qed.

Lemma upper_char_dot (c : char) :
  N.eqb (ch ".") (Py.upper_char c) = N.eqb (ch ".") c.
Proof.
  unfold Py.upper_char.
  destruct ((97 <=? c)%N && (c <=? 122)%N) eqn:R; [|reflexivity].
  apply andb_true_iff in R. destruct R as [R1 R2].
  apply N.leb_le in R1. apply N.leb_le in R2.
  change (ch ".") with 46%N.
  destruct (N.eqb_spec 46 (c - 32)); destruct (N.eqb_spec 46 c);
    try reflexivity; lia.
Qed.

Lemma dots_upper (s : str) : dots (Py.upper s) = dots s.
Proof.
  induction s as [|c s IH]; [reflexivity|].
  unfold Py.upper in *. simpl map. rewrite !dots_cons, IH, upper_char_dot.
  reflexivity.
Qed.

Lemma lstrip_suffix (sp : char -> bool) (s : str) :
  exists p, s = p ++ Py.lstrip_with sp s.
Proof.
  induction s as [|c s [p IH]]; [exists []; reflexivity|].
  simpl. destruct (sp c).
  - exists (c :: p). simpl. f_equal. exact IH.
  - exists []. reflexivity.
Qed.

Lemma tame_lstrip (sp : char -> bool) (s : str) :
  tame s -> tame (Py.lstrip_with sp s).
Proof.
  intros [Hc Hd]. destruct (lstrip_suffix sp s) as [p E].
  split.
  - intros c Hin. apply Hc. rewrite E. apply in_or_app. right. exact Hin.
  - rewrite E, dots_app in Hd. lia.
Qed.

Lemma tame_rev (s : str) : tame s -> tame (rev s).
Proof.
  intros [Hc Hd]. split.
  - intros c Hin. apply Hc. apply in_rev. exact Hin.
  - rewrite dots_rev. exact Hd.
Qed.

Lemma tame_dos_upper (s : str) : tame s -> tame (dos_upper s).
Proof.
  intros T. unfold dos_upper.
  assert (Enc : Py.encode_ascii_replace s = s).
  { unfold Py.encode_ascii_replace. rewrite <- (map_id s) at 2.
    apply map_ext_in. intros c Hc. destruct T as [Good _].
    destruct (Good c Hc) as [A| ->]; [|reflexivity].
    destruct (allowable_facts c A) as [_ [L _]]. rewrite L. reflexivity. }
  rewrite Enc.
  assert (S : tame (Py.strip s)).
  { unfold Py.strip, Py.strip_with, Py.rstrip_with.
    apply tame_rev, tame_lstrip, tame_rev, tame_lstrip. exact T. }
  destruct S as [Good Hd]. split.
  - intros c Hin. unfold Py.upper in Hin. apply in_map_iff in Hin.
    destruct Hin as [a [<- Ha]].
    destruct (Good a Ha) as [A| ->]; [|right; reflexivity].
    left. apply allowable_facts. exact A.
  - rewrite dots_upper. exact Hd.
Qed.

Lemma split_once_spec (sep : char) (s : str) :
  match Py.split_once sep s with
  | (t, None) => s = t /\ ~ In sep t
  | (t, Some e) => s = t ++ sep :: e /\ ~ In sep t
  end.
Proof.
  induction s as [|c s IH]; simpl; [tauto|].
  destruct (N.eqb_spec c sep) as [->|Hne]; [simpl; tauto|].
  destruct (Py.split_once sep s) as [t [e|]]; destruct IH as [-> Ht];
    (split; [reflexivity | intros [F|F]; [congruence | exact (Ht F)]]).
Qed.

Lemma In_upto (n : nat) (s : str) (c : char) : In c (Py.upto n s) -> In c s.
Proof.
  unfold Py.upto. intros H. rewrite <- (firstn_skipn n s).
  apply in_or_app. left. exact H.
Qed.

(** The character check passes on a tame name. *)
Lemma tame_not_allowable_chars (s : str) :
  tame s ->
  not_allowable_chars (fst (split_dosname s false))
                      (snd (split_dosname s false)) = [].
Proof.
  intros T. apply tame_dos_upper in T. destruct T as [Good Hd].
  unfold split_dosname.
  destruct (Py.eqb (dos_upper s) (lit ".")); [reflexivity|].
  destruct (Py.eqb (dos_upper s) (lit "..")) eqn:E2.
  { apply eqb_eq in E2. rewrite E2 in Hd. vm_compute in Hd. lia. }
  unfold trunk_ext.
  pose proof (split_once_spec (ch ".") (dos_upper s)) as Sp.
  destruct (Py.split_once (ch ".") (dos_upper s)) as [t [e|]];
    destruct Sp as [Eq Ht]; cbn [fst snd].
  - assert (He : ~ In (ch ".") e).
    { apply dots_zero. rewrite Eq, dots_app, dots_cons, N.eqb_refl in Hd. lia. }
    unfold not_allowable_chars.
    destruct (filter (fun c => negb (allowable c)) (Py.upto 8 t ++ Py.upto 3 e))
      as [|c bad] eqn:F; [reflexivity|].
    assert (Hin : In c (filter (fun c => negb (allowable c))
                               (Py.upto 8 t ++ Py.upto 3 e)))
      by (rewrite F; left; reflexivity).
    apply filter_In in Hin. destruct Hin as [Hin Hbad].
    apply negb_true_iff in Hbad.
    assert (Hc : In c (dos_upper s) /\ c <> ch ".").
    { rewrite Eq. apply in_app_or in Hin. destruct Hin as [Hin|Hin].
      - apply In_upto in Hin. split; [apply in_or_app; left; exact Hin|].
        intros ->. exact (Ht Hin).
      - apply In_upto in Hin.
        split; [apply in_or_app; right; right; exact Hin|].
        intros ->. exact (He Hin). }
    destruct Hc as [Hc Hnd]. destruct (Good c Hc); congruence.
  - unfold not_allowable_chars. change (Py.upto 3 []) with (@nil char).
    rewrite app_nil_r.
    destruct (filter (fun c => negb (allowable c)) (Py.upto 8 t))
      as [|c bad] eqn:F; [reflexivity|].
    assert (Hin : In c (filter (fun c => negb (allowable c)) (Py.upto 8 t)))
      by (rewrite F; left; reflexivity).
    apply filter_In in Hin. destruct Hin as [Hin Hbad].
    apply negb_true_iff in Hbad. apply In_upto in Hin.
    assert (Hnd : c <> ch ".") by (intros ->; exact (Ht Hin)).
    rewrite <- Eq in Hin. destruct (Good c Hin); congruence.
Qed.

Lemma tame_but_last (s : str) : tame s -> tame (Py.but_last s).
Proof.
  intros [Good Hd]. unfold Py.but_last.
  destruct s as [|c s]; [split; [intros c [] | simpl; lia]|].
  destruct (exists_last (l := c :: s)) as [q [z E]]; [discriminate|].
  rewrite E in *. rewrite removelast_last. split.
  - intros a Ha. apply Good. apply in_or_app. left. exact Ha.
  - rewrite dots_app in Hd. lia.
Qed.

Lemma tame_with_extension (name defext : str) :
  tame name -> Py.contains (ch ".") name = false ->
  (forall c, In c defext -> allowable c = true) ->
  tame (name ++ lit "." ++ defext).
Proof.
  intros [Good _] Hno Hext. split.
  - intros c Hin. apply in_app_or in Hin. destruct Hin as [Hin|Hin];
      [apply Good; exact Hin|].
    destruct Hin as [<-|Hin]; [right; reflexivity | left; apply Hext; exact Hin].
  - assert (D0 : dots name = 0).
    { apply dots_zero. intros F. apply contains_In in F. congruence. }
    assert (D1 : dots defext = 0).
    { apply dots_zero. intros F.
      destruct (allowable_facts _ (Hext _ F)) as [_ [_ N]]. apply N; reflexivity. }
    rewrite dots_app. change (lit "." ++ defext) with (ch "." :: defext).
    rewrite dots_cons, N.eqb_refl. lia.
Qed.

(** C1, as amended: [#], [&] and [%] are all allowable.  Take a name
    whose characters are allowable, but for one dot at most, and a default
    extension of allowable characters.  If name and extension are not
    both empty and the path of the directory holds no NUL, [match_filename]
    returns a name, or raises the error the caller asked for when nothing
    is found: the name is never refused for its characters.  Without
    these two conditions the only other ends are the [IndexError] of a
    name and extension that are both empty and the [TypeError] of listing
    a path with a NUL.  A name that does not exist as typed and whose
    trunk or extension holds a character that is not allowable is refused
    with [BAD_FILE_NAME] right after the probe. *)
Theorem match_filename_allowable_chars :
  (allowable (ch "#") = true /\ allowable (ch "&") = true
   /\ allowable (ch "%") = true /\ allowable (ch "*") = false)
  /\ (forall fs name defext path name_err isdir,
         tame name ->
         (forall c, In c defext -> allowable c = true) ->
         match result (match_filename fs name defext path name_err isdir) with
         | Returns _ => True
         | Raises (BASICError e) => name_err = Some e
         | Raises IndexError => name = [] /\ defext = []
         | Raises TypeError => has_nul path = true
         end)
  /\ (forall fs name defext path name_err isdir,
         tame name ->
         (forall c, In c defext -> allowable c = true) ->
         name <> [] \/ defext <> [] ->
         has_nul path = false ->
         (exists n,
             result (match_filename fs name defext path name_err isdir)
             = Returns n)
         \/ (exists e,
                name_err = Some e
                /\ result (match_filename fs name defext path name_err isdir)
                   = Raises (BASICError e)))
  /\ (forall fs name defext path name_err isdir,
         name <> [] \/ defext <> [] ->
         (dotted_probe path name defext isdir <> [] ->
          result (istype fs path name isdir) = Returns false) ->
         result (istype fs path (settled_name name defext) isdir)
         = Returns false ->
         not_allowable_chars
           (fst (split_dosname (settled_name name defext) false))
           (snd (split_dosname (settled_name name defext) false)) <> [] ->
         match_filename fs name defext path name_err isdir
         = (dotted_probe path name defext isdir
              ++ trace (istype fs path (settled_name name defext) isdir),
            Raises (BASICError BAD_FILE_NAME))).
Proof.
  assert (Ends : forall fs name defext path name_err isdir,
             tame name ->
             (forall c, In c defext -> allowable c = true) ->
             match result (match_filename fs name defext path name_err isdir)
             with
             | Returns _ => True
             | Raises (BASICError e) => name_err = Some e
             | Raises IndexError => name = [] /\ defext = []
             | Raises TypeError => has_nul path = true
             end).
  { intros fs name defext path name_err isdir Tn Text.
    assert (Settled : forall s, tame s ->
      match result (match_settled_name fs s path name_err isdir) with
      | Returns _ => True
      | Raises (BASICError e) => name_err = Some e
      | Raises IndexError => name = [] /\ defext = []
      | Raises TypeError => has_nul path = true
      end).
    { intros s Ts.
      pose proof (match_settled_name_result fs s path name_err isdir) as R.
      pose proof (tame_not_allowable_chars Ts) as Ok.
      destruct (result (match_settled_name fs s path name_err isdir))
        as [n|[e| |]]; try exact R; [|contradiction].
      destruct R as [[_ [_ Bad]]|[R _]]; [congruence | exact R]. }
    unfold match_filename.
    destruct (Py.truthy defext && negb (Py.contains (ch ".") name)) eqn:D.
    + apply andb_true_iff in D. destruct D as [_ D].
      apply negb_true_iff in D.
      apply Settled. apply tame_with_extension; assumption.
    + destruct name as [|c name].
      * destruct defext; [simpl; auto | discriminate D].
      * cbn [Py.last_char].
        destruct (N.eqb (last (c :: name) 0%N) (ch ".")
                  && negb (Py.contains (ch ".") (Py.but_last (c :: name)))).
        -- rewrite bind_istype. cbn [result snd].
           destruct (istype_answer fs path (c :: name) isdir); [exact I|].
           apply Settled. apply tame_but_last. exact Tn.
        -- apply Settled. exact Tn. }
  split; [repeat split; reflexivity|]. split; [exact Ends|]. split.
  - intros fs name defext path name_err isdir Tn Text Hne Hnul.
    pose proof (Ends fs name defext path name_err isdir Tn Text) as E.
    destruct (result (match_filename fs name defext path name_err isdir))
      as [n|[e| |]].
    + left. exists n. reflexivity.
    + right. exists e. split; [exact E | reflexivity].
    + destruct E as [-> ->]. destruct Hne; congruence.
    + congruence.
  - intros fs name defext path name_err isdir Hne Hdotted Hprobe Hbad.
    apply istype_result in Hprobe.
    assert (Settled : forall s,
      istype_answer fs path s isdir = false ->
      not_allowable_chars (fst (split_dosname s false))
                          (snd (split_dosname s false)) <> [] ->
      match_settled_name fs s path name_err isdir
      = (trace (istype fs path s isdir), Raises (BASICError BAD_FILE_NAME))).
    { intros s Hs Hb. unfold match_settled_name.
      rewrite bind_istype, Hs, istype_trace.
      destruct (split_dosname s false) as [trunk ext]. cbn [fst snd] in Hb.
      destruct (not_allowable_chars trunk ext); [congruence | reflexivity]. }
    unfold match_filename.
    unfold settled_name, dotted_probe, appends_defext, single_trailing_dot in *.
    destruct (Py.truthy defext && negb (Py.contains (ch ".") name)) eqn:D.
    + apply Settled; assumption.
    + destruct name as [|c name].
      * destruct defext; [destruct Hne; congruence | discriminate D].
      * cbn [Py.last_char] in *.
        destruct (N.eqb (last (c :: name) 0%N) (ch ".")
                  && negb (Py.contains (ch ".") (Py.but_last (c :: name)))).
        -- rewrite bind_istype.
           assert (Hd : istype_answer fs path (c :: name) isdir = false)
             by (apply istype_result; apply Hdotted; discriminate).
           rewrite Hd, (Settled _ Hprobe Hbad). reflexivity.
        -- apply Settled; assumption.
Qed.

Lemma match_filename_allowable_chars_witness :
  ((exists n,
       result (match_filename empty_fs (lit "R&D#1.50%") (lit "BAS")
                              (lit "/d") (Some FILE_NOT_FOUND) false)
       = Returns n)
   \/ (exists e,
          Some FILE_NOT_FOUND = Some e
          /\ result (match_filename empty_fs (lit "R&D#1.50%") (lit "BAS")
                                    (lit "/d") (Some FILE_NOT_FOUND) false)
             = Raises (BASICError e)))
  /\ match result (match_filename empty_fs (lit "A#B&C") (lit "BAS")
                                  (lit "/d") None false) with
     | Returns _ => True
     | Raises (BASICError e) => @None basic_error = Some e
     | Raises IndexError => lit "A#B&C" = [] /\ lit "BAS" = []
     | Raises TypeError => has_nul (lit "/d") = true
     end
  /\ match_filename empty_fs (lit "A*B") [] (lit "/d") None false
     = (trace (istype empty_fs (lit "/d") (lit "A*B") false),
        Raises (BASICError BAD_FILE_NAME)).
Proof.
  destruct match_filename_allowable_chars as [_ [Hends [Hok Hbad]]].
  assert (Text : forall c, In c (lit "BAS") -> allowable c = true).
  { intros c Hin. simpl in Hin.
    repeat (destruct Hin as [<-|Hin]; [reflexivity|]). destruct Hin. }
  split; [|split].
  - apply (Hok empty_fs (lit "R&D#1.50%") (lit "BAS") (lit "/d")
               (Some FILE_NOT_FOUND) false).
    + split; [|vm_compute; lia].
      intros c Hin. simpl in Hin.
      repeat (destruct Hin as [<-|Hin];
              [(left; reflexivity) || (right; reflexivity)|]).
      destruct Hin.
    + exact Text.
    + left. discriminate.
    + reflexivity.
  - apply (Hends empty_fs (lit "A#B&C") (lit "BAS") (lit "/d") None false).
    + split; [|vm_compute; lia].
      intros c Hin. simpl in Hin.
      repeat (destruct Hin as [<-|Hin]; [left; reflexivity|]).
      destruct Hin.
    + exact Text.
  - apply (Hbad empty_fs (lit "A*B") [] (lit "/d") None false);
      [left; discriminate | reflexivity | reflexivity | discriminate].
Defined.

(** C1 as stated fails: a name with [%] that does not exist as typed is
    not refused; in create mode it resolves to its DOS name, in read mode
    the error is the one the caller asked for. *)
Lemma match_filename_percent :
  result (istype empty_fs (lit "/d") (lit "A%B") false) = Returns false
  /\ result (match_filename empty_fs (lit "A%B") [] (lit "/d") None false)
     = Returns (lit "A%B")
  /\ result (match_filename empty_fs (lit "A%B") [] (lit "/d")
                            (Some FILE_NOT_FOUND) false)
     = Raises (BASICError FILE_NOT_FOUND)
  /\ result (match_filename empty_fs (lit "A%B") [] (lit "/d") None false)
     <> Raises (BASICError BAD_FILE_NAME).
Proof.
  repeat split; try reflexivity. vm_compute. discriminate.
Qed.

(** ** The round trip of the codec *)

Lemma length_lstrip (sp : char -> bool) (s : str) :
  List.length (Py.lstrip_with sp s) <= List.length s.
Proof.
  destruct (lstrip_suffix sp s) as [p E]. rewrite E at 2.
  rewrite length_app. lia.
Qed.

Lemma length_rstrip (sp : char -> bool) (s : str) :
  List.length (Py.rstrip_with sp s) <= List.length s.
Proof.
  unfold Py.rstrip_with. rewrite length_rev.
  rewrite <- (length_rev s). apply length_lstrip.
Qed.

(** Stripping a name with a space at either end makes it shorter. *)
Lemma length_strip_outer_space (s : str) :
  outer_space s = true -> List.length (Py.strip s) < List.length s.
Proof.
  destruct s as [|c s']; [discriminate|].
  cbn [outer_space]. intros H. apply orb_true_iff in H.
  unfold Py.strip, Py.strip_with.
  destruct H as [H|H]; apply N.eqb_eq in H.
  - subst c. cbn [Py.lstrip_with]. change (Py.isspace (ch " ")) with true.
    cbv iota.
    pose proof (length_rstrip Py.isspace (Py.lstrip_with Py.isspace s')).
    pose proof (length_lstrip Py.isspace s'). simpl List.length. lia.
  - destruct (lstrip_suffix Py.isspace (c :: s')) as [p E].
    destruct (Py.lstrip_with Py.isspace (c :: s')) as [|d x] eqn:L.
    + simpl. lia.
    + destruct (exists_last (l := d :: x)) as [q [z Q]]; [discriminate|].
      rewrite Q in E. rewrite E, app_assoc, last_last in H. subst z.
      rewrite Q. unfold Py.rstrip_with.
      rewrite rev_app_distr. change (rev [ch " "]) with [ch " "].
      cbn [app Py.lstrip_with]. change (Py.isspace (ch " ")) with true.
      cbv iota. rewrite length_rev.
      pose proof (length_lstrip Py.isspace (rev q)) as Lq.
      rewrite length_rev in Lq.
      rewrite E, !length_app. simpl List.length. lia.
Qed.

(** Joining what [split_dosname] returns gives a name no longer than the
    uppercased, stripped name, and the single dot when that is empty. *)
Lemma length_join_split (name : str) (mark : bool) :
  let joined :=
    join_dosname (fst (split_dosname name mark))
                 (snd (split_dosname name mark)) false in
  (dos_upper name = [] -> joined = lit ".")
  /\ (dos_upper name <> [] ->
      List.length joined <= List.length (dos_upper name)).
Proof.
  intros joined. unfold joined. rewrite split_dosname_shape.
  destruct (Py.eqb (dos_upper name) (lit ".")) eqn:E1.
  { apply eqb_eq in E1. rewrite E1. split; [discriminate | simpl; lia]. }
  destruct (Py.eqb (dos_upper name) (lit "..")) eqn:E2.
  { apply eqb_eq in E2. rewrite E2. split; [discriminate | simpl; lia]. }
  unfold trunk_ext.
  pose proof (split_once_spec (ch ".") (dos_upper name)) as Sp.
  destruct (Py.split_once (ch ".") (dos_upper name)) as [t [e|]];
    destruct Sp as [Eq _]; rewrite Eq; cbn [fst snd].
  - split; [intros F; destruct t; discriminate F|]. intros _.
    set (t' := if 8 <? List.length t
               then if mark then firstn 7 t ++ lit "+" else firstn 8 t
               else t).
    set (e' := if 3 <? List.length e
               then if mark then firstn 2 e ++ lit "+" else firstn 3 e
               else e).
    assert (Lt : List.length t' <= List.length t).
    { unfold t'. destruct (Nat.ltb_spec 8 (List.length t)); [|lia].
      destruct mark; rewrite ?length_app, length_firstn;
        change (List.length (lit "+")) with 1; lia. }
    assert (Le : List.length e' <= List.length e).
    { unfold e'. destruct (Nat.ltb_spec 3 (List.length e)); [|lia].
      destruct mark; rewrite ?length_app, length_firstn;
        change (List.length (lit "+")) with 1; lia. }
    unfold join_dosname.
    destruct (Py.truthy e' || negb (Py.truthy t'));
      rewrite !length_app; simpl List.length; lia.
  - split.
    + intros ->. reflexivity.
    + intros Hne. change (3 <? List.length (@nil char)) with false. cbv iota.
      set (t' := if 8 <? List.length t
                 then if mark then firstn 7 t ++ lit "+" else firstn 8 t
                 else t).
      assert (Lt : List.length t' <= List.length t /\ t' <> []).
      { unfold t'. destruct (Nat.ltb_spec 8 (List.length t)); [|auto].
        destruct mark.
        - rewrite length_app, length_firstn.
          change (List.length (lit "+")) with 1.
          split; [lia | intros F; apply app_eq_nil in F; destruct F; discriminate].
        - rewrite length_firstn. split; [lia|].
          intros F. apply (f_equal (@List.length char)) in F.
          rewrite length_firstn in F.
          change (List.length (@nil char)) with 0 in F. lia. }
      destruct Lt as [Lt Ne]. unfold join_dosname.
      destruct t' as [|a t'']; [congruence|].
      cbn [Py.truthy negb orb]. rewrite app_nil_r. exact Lt.
Qed.

(** C2, as amended: for a trunk of at most 8 and an extension of at most 3
    characters, all allowable and none a lowercase letter, joining what
    [split_dosname] makes of the joined name gives the joined name back
    exactly when the joined name neither begins nor ends with a space;
    splitting then gives back trunk and extension themselves. *)
Theorem join_split_join_roundtrip (trunk ext : str) (mark_shortened : bool) :
  List.length trunk <= 8 -> List.length ext <= 3 ->
  forallb canonical_char (trunk ++ ext) = true ->
  (outer_space (join_dosname trunk ext false) = false ->
   split_dosname (join_dosname trunk ext false) mark_shortened = (trunk, ext))
  /\ ((let '(t, e) :=
         split_dosname (join_dosname trunk ext false) mark_shortened in
       join_dosname t e false) = join_dosname trunk ext false
      <-> outer_space (join_dosname trunk ext false) = false).
Proof.
  intros Lt Le Hc.
  pose proof (fun H => split_join_canonical trunk ext mark_shortened Lt Le Hc H)
    as Split.
  split; [exact Split|]. split.
  - intros Round.
    destruct (outer_space (join_dosname trunk ext false)) eqn:Sp;
      [exfalso | reflexivity].
    set (n := join_dosname trunk ext false) in *.
    assert (Short : List.length (dos_upper n) < List.length n).
    { unfold dos_upper, Py.upper. rewrite length_map.
      assert (Enc : Py.encode_ascii_replace n = n).
      { unfold Py.encode_ascii_replace. rewrite <- (map_id n) at 2.
        apply map_ext_in. intros c Hin.
        assert (G : canonical_char c = true \/ c = ch ".").
        { rewrite forallb_forall in Hc. unfold n, join_dosname in Hin.
          destruct (Py.truthy ext || negb (Py.truthy trunk));
            repeat (apply in_app_or in Hin; destruct Hin as [Hin|Hin]);
            try (left; apply Hc; apply in_or_app; auto; fail).
          destruct Hin as [<-|[]]. right; reflexivity. }
        destruct G as [G| ->]; [|reflexivity].
        destruct (canonical_char_facts c G) as [A _]. rewrite A. reflexivity. }
      rewrite Enc. apply length_strip_outer_space. exact Sp. }
    destruct (length_join_split n mark_shortened) as [Hnil Hlen].
    destruct (split_dosname n mark_shortened) as [t e]. cbn [fst snd] in *.
    destruct (dos_upper n) as [|d D] eqn:ED.
    + rewrite (Hnil eq_refl) in Round. rewrite <- Round in Sp. discriminate Sp.
    + assert (L : List.length (join_dosname t e false) <= List.length (d :: D))
        by (apply Hlen; discriminate).
      rewrite Round in L. lia.
  - intros Sp. rewrite (Split Sp). reflexivity.
Qed.

Lemma join_split_join_roundtrip_witness :
  (let '(t, e) :=
     split_dosname (join_dosname (lit "MY FILE") (lit "TXT") false) false in
   join_dosname t e false) = join_dosname (lit "MY FILE") (lit "TXT") false.
Proof.
  apply (join_split_join_roundtrip (lit "MY FILE") (lit "TXT") false);
    [simpl; lia | simpl; lia | reflexivity | reflexivity].
Defined.

(** C2 as stated fails: the space is allowable, and [split_dosname]
    strips it from the ends of the joined name. *)
Lemma join_split_join_leading_space :
  List.length (lit " A") <= 8 /\ List.length (lit "TXT") <= 3
  /\ forallb canonical_char (lit " A" ++ lit "TXT") = true
  /\ join_dosname (lit " A") (lit "TXT") false = lit " A.TXT"
  /\ split_dosname (lit " A.TXT") false = (lit "A", lit "TXT")
  /\ (let '(t, e) :=
        split_dosname (join_dosname (lit " A") (lit "TXT") false) false in
      join_dosname t e false) <> join_dosname (lit " A") (lit "TXT") false.
Proof.
  repeat split; try reflexivity; try (simpl; lia).
  vm_compute. discriminate.
Qed.

(* ================================================================== *)
(** * Further properties of the module *)

(** ** Normalised paths *)

Lemma normpath_spec_real_rest (rest : list str) :
  forall kept,
    Forall (fun e => real_element e = true) rest ->
    normpath_spec kept rest = kept ++ rest.
Proof.
  induction rest as [|e rest IH]; intros kept H; simpl.
  - symmetry. apply app_nil_r.
  - inversion H as [|? ? He Hrest]; subst.
    unfold real_element in He. apply andb_true_iff in He.
    destruct He as [E1 E2]. apply negb_true_iff in E1, E2.
    rewrite E1, E2, (IH _ Hrest), <- app_assoc. reflexivity.
Qed.

(** [dos_normpath] returns a list without [.] and [..] as it is, and so
    normalising twice is the same as normalising once. *)
Theorem dos_normpath_idempotent :
  (forall elements,
      Forall (fun e => real_element e = true) elements ->
      dos_normpath elements = elements)
  /\ (forall elements,
         dos_normpath (dos_normpath elements) = dos_normpath elements).
Proof.
  assert (Fixed : forall elements,
             Forall (fun e => real_element e = true) elements ->
             dos_normpath elements = elements).
  { intros elements H. rewrite dos_normpath_spec.
    apply (normpath_spec_real_rest [] H). }
  split; [exact Fixed|].
  intros elements. apply Fixed. rewrite dos_normpath_spec.
  apply normpath_spec_real. constructor.
Qed.

Lemma dos_normpath_idempotent_witness :
  dos_normpath [lit ""; lit "A"; lit "B C"] = [lit ""; lit "A"; lit "B C"].
Proof.
  apply (proj1 dos_normpath_idempotent).
  repeat constructor.
Defined.

Lemma In_removelast_In {A} (l : list A) (x : A) :
  In x (removelast l) -> In x l.
Proof.
  destruct l as [|a l]; [intros []|].
  destruct (exists_last (l := a :: l)) as [q [z ->]]; [discriminate|].
  rewrite removelast_last. intros H. apply in_or_app. left. exact H.
Qed.

Lemma length_removelast_le {A} (l : list A) :
  List.length (removelast l) <= List.length l.
Proof.
  destruct l as [|a l]; [simpl; lia|].
  destruct (exists_last (l := a :: l)) as [q [z ->]]; [discriminate|].
  rewrite removelast_last, length_app. lia.
Qed.

Lemma normpath_spec_sub (rest : list str) :
  forall kept,
    (forall e, In e (normpath_spec kept rest) -> In e kept \/ In e rest)
    /\ List.length (normpath_spec kept rest)
       <= List.length kept + List.length rest.
Proof.
  induction rest as [|x rest IH]; intros kept; simpl.
  - split; [auto | lia].
  - destruct (Py.eqb x (lit ".")).
    { destruct (IH kept) as [I L]. split; [|lia].
      intros e He. destruct (I e He); auto. }
    destruct (Py.eqb x (lit "..")).
    { destruct (IH (removelast kept)) as [I L].
      pose proof (length_removelast_le kept). split; [|lia].
      intros e He. destruct (I e He) as [H1|H1]; auto.
      left. apply In_removelast_In. exact H1. }
    destruct (IH (kept ++ [x])) as [I L].
    rewrite length_app in L. simpl in L. split; [|lia].
    intros e He. destruct (I e He) as [H1|H1]; auto.
    apply in_app_or in H1. destruct H1 as [H1|[<-|[]]]; auto.
Qed.

(** [dos_normpath] invents nothing: every element of its result is an
    element of its argument that is neither [.] nor [..], and the result
    is never longer than the argument. *)
Theorem dos_normpath_keeps_elements (elements : list str) :
  (forall e, In e (dos_normpath elements) ->
             In e elements /\ e <> lit "." /\ e <> lit "..")
  /\ List.length (dos_normpath elements) <= List.length elements.
Proof.
  destruct (normpath_spec_sub elements []) as [I L].
  rewrite <- dos_normpath_spec in I, L. split; [|exact L].
  intros e He. split.
  - destruct (I e He) as [[]|H]. exact H.
  - assert (R : Forall (fun e => real_element e = true) (dos_normpath elements)).
    { rewrite dos_normpath_spec. apply normpath_spec_real. constructor. }
    rewrite Forall_forall in R. specialize (R e He).
    unfold real_element in R. apply andb_true_iff in R.
    destruct R as [R1 R2]. apply negb_true_iff in R1, R2.
    apply eqb_neq in R1. apply eqb_neq in R2. auto.
Qed.

Lemma dos_normpath_keeps_elements_witness :
  In (lit "B") [lit "A"; lit ".."; lit "B"; lit "."].
Proof.
  apply (proj1 (dos_normpath_keeps_elements
                  [lit "A"; lit ".."; lit "B"; lit "."]) (lit "B")).
  left. reflexivity.
Defined.

(** ** Masks without wildcards *)

(** A mask with neither [?] nor [*] matches one name only: itself. *)
Theorem match_wildcard_literal (name mask : str) :
  Py.contains (ch "?") mask = false ->
  Py.contains (ch "*") mask = false ->
  (match_wildcard name mask = true <-> name = mask).
Proof.
  revert name. induction mask as [|c mask IH]; intros name Hq Hs.
  - destruct name; unfold match_wildcard; simpl;
      split; intros H; try reflexivity; discriminate H.
  - unfold Py.contains in Hq, Hs. cbn [existsb] in Hq, Hs.
    fold (Py.contains (ch "?") mask) in Hq.
    fold (Py.contains (ch "*") mask) in Hs.
    apply orb_false_iff in Hq. destruct Hq as [Hq Hq'].
    apply orb_false_iff in Hs. destruct Hs as [Hs Hs'].
    rewrite match_wildcard_cons.
    rewrite N.eqb_sym in Hq. rewrite N.eqb_sym in Hs. rewrite Hq, Hs.
    destruct name as [|d name]; [split; discriminate|].
    cbn [re_match]. rewrite andb_true_iff, N.eqb_eq.
    change (re_match (mask_regexp mask) name) with (match_wildcard name mask).
    rewrite (IH name Hq' Hs').
    split; [intros [-> ->]; reflexivity | intros [= -> ->]; auto].
Qed.

Lemma match_wildcard_literal_witness :
  match_wildcard (lit "README") (lit "README") = true.
Proof.
  apply (match_wildcard_literal (lit "README") (lit "README"));
    reflexivity.
Defined.

(** [*] alone matches the names without a newline, and [?] repeated [n]
    times the names of [n] characters without a newline. *)
Lemma match_wildcard_star (name : str) :
  match_wildcard name (lit "*") = negb (Py.contains newline name).
Proof.
  unfold match_wildcard. change (mask_regexp (lit "*")) with [ReDotStar].
  induction name as [|c name IH]; [reflexivity|].
  rewrite re_match_dotstar_cons, IH. unfold Py.contains. cbn [existsb].
  rewrite negb_orb. rewrite (N.eqb_sym newline c).
  cbn [re_match Py.truthy negb]. rewrite orb_false_r. reflexivity.
Qed.

(** ** DOS names *)

Lemma In_lstrip (sp : char -> bool) (s : str) (c : char) :
  In c (Py.lstrip_with sp s) -> In c s.
Proof.
  destruct (lstrip_suffix sp s) as [p E]. intros H. rewrite E.
  apply in_or_app. right. exact H.
Qed.

Lemma In_strip (sp : char -> bool) (s : str) (c : char) :
  In c (Py.strip_with sp s) -> In c s.
Proof.
  unfold Py.strip_with, Py.rstrip_with. intros H.
  apply in_rev in H. apply In_lstrip in H. apply in_rev in H.
  apply In_lstrip in H. exact H.
Qed.

Lemma upper_char_ascii (a : char) :
  (a < 128)%N ->
  (Py.upper_char a < 128)%N /\ is_lower (Py.upper_char a) = false.
Proof.
  intros Ha. unfold Py.upper_char, is_lower.
  destruct ((97 <=? a)%N && (a <=? 122)%N) eqn:R.
  - apply andb_true_iff in R. destruct R as [R1 R2].
    apply N.leb_le in R1. apply N.leb_le in R2.
    split; [lia|]. apply andb_false_iff. left. apply N.leb_gt. lia.
  - split; [exact Ha | exact R].
Qed.

Lemma encode_char_ascii (b : char) :
  ((if (b <? 128)%N then b else ch "?") < 128)%N.
Proof.
  destruct (N.ltb_spec b 128); [assumption | reflexivity].
Qed.

(** The characters of an uppercased name are ASCII and not lowercase. *)
Lemma dos_upper_chars (name : str) (c : char) :
  In c (dos_upper name) -> (c < 128)%N /\ is_lower c = false.
Proof.
  unfold dos_upper, Py.upper. intros H. apply in_map_iff in H.
  destruct H as [a [<- Ha]]. apply In_strip in Ha.
  unfold Py.encode_ascii_replace in Ha. apply in_map_iff in Ha.
  destruct Ha as [b [<- _]]. apply upper_char_ascii, encode_char_ascii.
Qed.

Lemma split_dosname_lengths (name : str) (mark : bool) :
  List.length (fst (split_dosname name mark)) <= 8
  /\ List.length (snd (split_dosname name mark)) <= 3.
Proof.
  rewrite split_dosname_shape.
  destruct (Py.eqb (dos_upper name) (lit ".")); [simpl; lia|].
  destruct (Py.eqb (dos_upper name) (lit "..")); [simpl; lia|].
  destruct (trunk_ext (dos_upper name)) as [trunk ext].
  destruct (Nat.ltb_spec 8 (List.length trunk)) as [Ht|Ht];
    destruct (Nat.ltb_spec 3 (List.length ext)) as [He|He];
    destruct mark; cbn [fst snd];
    rewrite ?length_app, ?length_firstn;
    change (List.length (lit "+")) with 1; lia.
Qed.

(** Where the characters of a split name come from: the uppercased name,
    or the plus sign of a shortened part; and the trunk holds no dot. *)
Lemma split_dosname_chars (name : str) (mark : bool) (c : char) :
  (In c (fst (split_dosname name mark)) ->
   (In c (dos_upper name) \/ c = ch "+") /\ c <> ch ".")
  /\ (In c (snd (split_dosname name mark)) ->
      In c (dos_upper name) \/ c = ch "+").
Proof.
  rewrite split_dosname_shape.
  destruct (Py.eqb (dos_upper name) (lit ".")); [split; intros []|].
  destruct (Py.eqb (dos_upper name) (lit "..")) eqn:E2.
  { apply eqb_eq in E2. rewrite E2. split; [intros []|].
    intros [<-|[]]. left. left. reflexivity. }
  unfold trunk_ext.
  pose proof (split_once_spec (ch ".") (dos_upper name)) as Sp.
  assert (Cut : forall (n k : nat) (s : str),
             In c (if n <? List.length s
                   then if mark then firstn k s ++ lit "+" else firstn n s
                   else s) -> In c s \/ c = ch "+").
  { intros n k s H. destruct (n <? List.length s); [|auto].
    destruct mark.
    - apply in_app_or in H. destruct H as [H|[<-|[]]]; [|auto].
      left. apply (In_upto k). exact H.
    - left. apply (In_upto n). exact H. }
  destruct (Py.split_once (ch ".") (dos_upper name)) as [t [e|]];
    destruct Sp as [Eq Ht]; cbn [fst snd]; split; intros H;
    apply Cut in H.
  - split.
    + destruct H as [H|H]; [left; rewrite Eq; apply in_or_app; auto | auto].
    + destruct H as [H| ->]; [intros ->; exact (Ht H) | discriminate].
  - destruct H as [H|H]; [|auto].
    left. rewrite Eq. apply in_or_app. right. right. exact H.
  - split.
    + destruct H as [H|H]; [left; rewrite Eq; exact H | auto].
    + destruct H as [H| ->]; [intros ->; exact (Ht H) | discriminate].
  - destruct H as [[]|H]. auto.
Qed.

(** Whatever the name, the trunk and the extension [split_dosname]
    returns are made of ASCII characters, none a lowercase letter, and
    the trunk holds no dot. *)
Theorem split_dosname_canonical (name : str) (mark_shortened : bool) :
  Forall (fun c => (c < 128)%N /\ is_lower c = false /\ c <> ch ".")
         (fst (split_dosname name mark_shortened))
  /\ Forall (fun c => (c < 128)%N /\ is_lower c = false)
            (snd (split_dosname name mark_shortened)).
Proof.
  split; apply Forall_forall; intros c Hc.
  - destruct (proj1 (split_dosname_chars name mark_shortened c) Hc)
      as [[H| ->] Hd].
    + destruct (dos_upper_chars name c H). auto.
    + split; [reflexivity|]. split; [reflexivity | discriminate].
  - destruct (proj2 (split_dosname_chars name mark_shortened c) Hc)
      as [H| ->].
    + exact (dos_upper_chars name c H).
    + split; reflexivity.
Qed.

(** The padded join of a split name is twelve characters wide. *)
Theorem join_dosname_padded_width (name : str) (mark_shortened : bool) :
  List.length (join_dosname (fst (split_dosname name mark_shortened))
                            (snd (split_dosname name mark_shortened)) true)
  = 12.
Proof.
  destruct (split_dosname_lengths name mark_shortened) as [Lt Le].
  destruct (split_dosname name mark_shortened) as [t e]. cbn [fst snd] in *.
  unfold join_dosname, Py.ljust.
  destruct (Py.truthy e || negb (Py.truthy t));
    rewrite !length_app, !repeat_length; simpl List.length; lia.
Qed.

Lemma lstrip_map (sp : char -> bool) (f : char -> char) (s : str) :
  (forall c, sp (f c) = sp c) ->
  Py.lstrip_with sp (map f s) = map f (Py.lstrip_with sp s).
Proof.
  intros H. induction s as [|c s IH]; [reflexivity|].
  simpl. rewrite H. destruct (sp c); [exact IH | reflexivity].
Qed.

Lemma strip_map (sp : char -> bool) (f : char -> char) (s : str) :
  (forall c, sp (f c) = sp c) ->
  Py.strip_with sp (map f s) = map f (Py.strip_with sp s).
Proof.
  intros H. unfold Py.strip_with, Py.rstrip_with.
  rewrite (@lstrip_map sp f _ H), <- map_rev, (@lstrip_map sp f _ H), map_rev.
  reflexivity.
Qed.

Lemma isspace_upper_char (c : char) :
  Py.isspace (Py.upper_char c) = Py.isspace c.
Proof.
  unfold Py.upper_char.
  destruct ((97 <=? c)%N && (c <=? 122)%N) eqn:R; [|reflexivity].
  apply andb_true_iff in R. destruct R as [R1 R2].
  apply N.leb_le in R1. apply N.leb_le in R2. unfold Py.isspace.
  replace (N.eqb (c - 32) 32) with false by (symmetry; apply N.eqb_neq; lia).
  replace (N.eqb c 32) with false by (symmetry; apply N.eqb_neq; lia).
  replace (c - 32 <=? 13)%N with false by (symmetry; apply N.leb_gt; lia).
  replace (c <=? 13)%N with false by (symmetry; apply N.leb_gt; lia).
  rewrite !andb_false_r. reflexivity.
Qed.

Lemma upper_char_idempotent (c : char) :
  Py.upper_char (Py.upper_char c) = Py.upper_char c.
Proof.
  unfold Py.upper_char.
  destruct ((97 <=? c)%N && (c <=? 122)%N) eqn:R.
  - apply andb_true_iff in R. destruct R as [R1 R2].
    apply N.leb_le in R1. apply N.leb_le in R2.
    replace (97 <=? c - 32)%N with false by (symmetry; apply N.leb_gt; lia).
    reflexivity.
  - rewrite R. reflexivity.
Qed.

Lemma encode_upper (s : str) :
  Py.encode_ascii_replace (Py.upper s)
  = Py.upper (Py.encode_ascii_replace s).
Proof.
  unfold Py.encode_ascii_replace, Py.upper. rewrite !map_map.
  apply map_ext. intros c. unfold Py.upper_char.
  destruct ((97 <=? c)%N && (c <=? 122)%N) eqn:R.
  - apply andb_true_iff in R. destruct R as [R1 R2].
    apply N.leb_le in R1. apply N.leb_le in R2.
    replace (c - 32 <? 128)%N with true by (symmetry; apply N.ltb_lt; lia).
    replace (c <? 128)%N with true by (symmetry; apply N.ltb_lt; lia).
    rewrite (proj2 (andb_true_iff _ _)); [reflexivity|].
    split; apply N.leb_le; assumption.
  - destruct (c <? 128)%N; [rewrite R|]; reflexivity.
Qed.

Lemma dos_upper_of_upper (name : str) :
  dos_upper (Py.upper name) = dos_upper name.
Proof.
  unfold dos_upper. rewrite encode_upper. unfold Py.strip, Py.upper.
  rewrite (@strip_map Py.isspace Py.upper_char _ isspace_upper_char), map_map.
  apply map_ext. intros c. apply upper_char_idempotent.
Qed.

Lemma split_dosname_of_dos_upper (name name' : str) (mark : bool) :
  dos_upper name = dos_upper name' ->
  split_dosname name mark = split_dosname name' mark.
Proof. unfold split_dosname. intros ->. reflexivity. Qed.

(** Two names that differ only in the case of ASCII letters have the same
    DOS name. *)
Theorem split_dosname_ignores_case (name name' : str) (mark_shortened : bool) :
  Py.upper name = Py.upper name' ->
  split_dosname name mark_shortened = split_dosname name' mark_shortened.
Proof.
  intros H. apply split_dosname_of_dos_upper.
  rewrite <- (dos_upper_of_upper name), <- (dos_upper_of_upper name'), H.
  reflexivity.
Qed.

Lemma split_dosname_ignores_case_witness :
  split_dosname (lit "Notes.txt") false = split_dosname (lit "nOTES.Txt") false.
Proof.
  apply (@split_dosname_ignores_case (lit "Notes.txt") (lit "nOTES.Txt") false).
  reflexivity.
Defined.

Lemma lstrip_app_stop (sp : char -> bool) (s t : str) (c : char) :
  sp c = false ->
  Py.lstrip_with sp (s ++ c :: t) = Py.lstrip_with sp s ++ c :: t.
Proof.
  intros H. induction s as [|d s IH]; simpl.
  - rewrite H. reflexivity.
  - destruct (sp d); [exact IH | reflexivity].
Qed.

Lemma rstrip_stop (sp : char -> bool) (x : str) (c : char) :
  sp c = false -> Py.rstrip_with sp (x ++ [c]) = x ++ [c].
Proof.
  intros H. unfold Py.rstrip_with. rewrite rev_app_distr.
  change (rev [c] ++ rev x) with (c :: rev x).
  rewrite lstrip_head by exact H.
  change (c :: rev x) with (rev [c] ++ rev x).
  rewrite <- rev_app_distr, rev_involutive. reflexivity.
Qed.

Lemma rstrip_fixed (sp : char -> bool) (x : str) :
  x = [] \/ sp (last x 0%N) = false -> Py.rstrip_with sp x = x.
Proof.
  intros [->|H]; [reflexivity|].
  destruct x as [|a x]; [reflexivity|].
  destruct (exists_last (l := a :: x)) as [q [z E]]; [discriminate|].
  rewrite E in *. rewrite last_last in H. apply rstrip_stop. exact H.
Qed.

Lemma last_lstrip (sp : char -> bool) (s : str) :
  Py.lstrip_with sp s = []
  \/ last (Py.lstrip_with sp s) 0%N = last s 0%N.
Proof.
  destruct (lstrip_suffix sp s) as [p E].
  destruct (Py.lstrip_with sp s) as [|a x]; [left; reflexivity|]. right.
  destruct (exists_last (l := a :: x)) as [q [z Q]]; [discriminate|].
  rewrite E, Q, app_assoc, !last_last. reflexivity.
Qed.

Lemma last_map {A B} (f : A -> B) (l : list A) (d : A) :
  last (map f l) (f d) = f (last l d).
Proof.
  induction l as [|a l IH]; [reflexivity|].
  destruct l; [reflexivity|]. exact IH.
Qed.

(** A single dot after a name that has none, and does not end in
    whitespace, does not change its DOS name. *)
Theorem split_dosname_trailing_dot (name : str) (mark_shortened : bool) :
  ~ In (ch ".") name ->
  name = [] \/ Py.isspace (last name 0%N) = false ->
  split_dosname (name ++ lit ".") mark_shortened
  = split_dosname name mark_shortened.
Proof.
  intros Hdot Hlast.
  set (enc := fun c : char => if (c <? 128)%N then c else ch "?").
  set (s := Py.encode_ascii_replace name).
  set (U := Py.upper (Py.lstrip_with Py.isspace s)).
  assert (Enc : Py.encode_ascii_replace (name ++ lit ".") = s ++ [ch "."]).
  { unfold s, Py.encode_ascii_replace. rewrite map_app. reflexivity. }
  assert (Hs : s = [] \/ Py.isspace (last s 0%N) = false).
  { destruct Hlast as [->|H]; [left; reflexivity|]. right.
    unfold s, Py.encode_ascii_replace.
    change 0%N with (enc 0%N) at 1. fold enc. rewrite last_map. unfold enc.
    match goal with
    | |- context [if ?b then _ else _] => destruct b
    end; [exact H | reflexivity]. }
  assert (D' : dos_upper (name ++ lit ".") = U ++ [ch "."]).
  { unfold dos_upper. rewrite Enc. unfold Py.strip, Py.strip_with.
    rewrite lstrip_app_stop by reflexivity.
    rewrite rstrip_stop by reflexivity.
    unfold Py.upper. rewrite map_app. reflexivity. }
  assert (D : dos_upper name = U).
  { unfold dos_upper, U. fold s. unfold Py.strip, Py.strip_with.
    rewrite rstrip_fixed; [reflexivity|].
    destruct (last_lstrip Py.isspace s) as [E|E]; [left; exact E|].
    destruct Hs as [->|Hs]; [left; reflexivity|].
    right. rewrite E. exact Hs. }
  assert (NoDot : ~ In (ch ".") U).
  { unfold U, Py.upper. intros H. apply in_map_iff in H.
    destruct H as [a [Ea Ha]]. apply In_lstrip in Ha.
    unfold s, Py.encode_ascii_replace in Ha. apply in_map_iff in Ha.
    destruct Ha as [b [Eb Hb]].
    assert (Da : a = ch ".").
    { apply N.eqb_eq. rewrite N.eqb_sym, <- upper_char_dot, Ea.
      reflexivity. }
    rewrite Da in Eb. apply Hdot. replace (ch ".") with b; [exact Hb|].
    destruct (b <? 128)%N; [exact Eb | discriminate Eb]. }
  rewrite !split_dosname_shape, D', D. unfold trunk_ext.
  rewrite split_once_first_sep by exact NoDot.
  rewrite split_once_no_sep by exact NoDot.
  destruct U as [|u U'].
  - reflexivity.
  - replace (Py.eqb ((u :: U') ++ [ch "."]) (lit ".")) with false
      by (symmetry; apply eqb_neq; destruct U'; discriminate).
    replace (Py.eqb ((u :: U') ++ [ch "."]) (lit "..")) with false.
    2:{ symmetry. apply eqb_neq. intros E. apply NoDot.
        injection E as E1 E2. left. auto. }
    replace (Py.eqb (u :: U') (lit ".")) with false.
    2:{ symmetry. apply eqb_neq. intros E. apply NoDot.
        rewrite E. left. reflexivity. }
    replace (Py.eqb (u :: U') (lit "..")) with false.
    2:{ symmetry. apply eqb_neq. intros E. apply NoDot.
        rewrite E. left. reflexivity. }
    reflexivity.
Qed.

Lemma split_dosname_trailing_dot_witness :
  split_dosname (lit "LongFileName" ++ lit ".") true
  = split_dosname (lit "LongFileName") true.
Proof.
  apply (@split_dosname_trailing_dot (lit "LongFileName") true).
  - intros H. simpl in H.
    repeat (destruct H as [H|H]; [discriminate H|]). exact H.
  - right. reflexivity.
Defined.

(** A name whose uppercased form is not empty, fits 8.3 and is not a
    non-empty trunk followed by a bare dot comes back from [split_dosname]
    and [join_dosname] as that uppercased form. *)
Theorem join_split_normal_form (name : str) (mark_shortened : bool) :
  dos_upper name <> [] ->
  List.length (fst (trunk_ext (dos_upper name))) <= 8 ->
  List.length (snd (trunk_ext (dos_upper name))) <= 3 ->
  (fst (trunk_ext (dos_upper name)) <> [] ->
   dos_upper name <> fst (trunk_ext (dos_upper name)) ++ lit ".") ->
  join_dosname (fst (split_dosname name mark_shortened))
               (snd (split_dosname name mark_shortened)) false
  = dos_upper name.
Proof.
  intros Hne Lt Le Hbare. rewrite split_dosname_shape.
  destruct (Py.eqb (dos_upper name) (lit ".")) eqn:E1.
  { apply eqb_eq in E1. rewrite E1. reflexivity. }
  destruct (Py.eqb (dos_upper name) (lit "..")) eqn:E2.
  { apply eqb_eq in E2. rewrite E2. reflexivity. }
  unfold trunk_ext in *.
  pose proof (split_once_spec (ch ".") (dos_upper name)) as Sp.
  destruct (Py.split_once (ch ".") (dos_upper name)) as [t [e|]];
    destruct Sp as [Eq Ht]; cbn [fst snd] in *.
  - replace (8 <? List.length t) with false
      by (symmetry; apply Nat.ltb_ge; exact Lt).
    replace (3 <? List.length e) with false
      by (symmetry; apply Nat.ltb_ge; exact Le).
    unfold join_dosname. destruct e as [|c e].
    + destruct t as [|a t].
      * rewrite Eq. reflexivity.
      * exfalso. apply Hbare; [discriminate | exact Eq].
    + cbn [Py.truthy orb]. rewrite Eq. reflexivity.
  - replace (8 <? List.length t) with false
      by (symmetry; apply Nat.ltb_ge; exact Lt).
    unfold join_dosname. destruct t as [|a t]; [congruence|].
    cbn [Py.truthy negb orb]. rewrite Eq, app_nil_r. reflexivity.
Qed.

Lemma join_split_normal_form_witness :
  join_dosname (fst (split_dosname (lit " readme.txt ") false))
               (snd (split_dosname (lit " readme.txt ") false)) false
  = lit "README.TXT".
Proof.
  apply (@join_split_normal_form (lit " readme.txt ") false).
  - discriminate.
  - vm_compute. lia.
  - vm_compute. lia.
  - intros _. discriminate.
Defined.

(** ** Names made presentable *)

Lemma filename_char_fixed (d : char) :
  allowable d || N.eqb d (ch ".") || N.eqb d (ch "?") = true ->
  (if allowable (if (d <? 128)%N then d else ch "?")
      || N.eqb (if (d <? 128)%N then d else ch "?") (ch ".")
   then if (d <? 128)%N then d else ch "?"
   else ch "?") = d.
Proof.
  intros H.
  assert (Lt : (d <? 128)%N = true).
  { apply orb_true_iff in H. destruct H as [H|H].
    - apply orb_true_iff in H. destruct H as [H|H].
      + apply allowable_facts in H. tauto.
      + apply N.eqb_eq in H. subst d. reflexivity.
    - apply N.eqb_eq in H. subst d. reflexivity. }
  rewrite Lt.
  destruct (allowable d || N.eqb d (ch ".")) eqn:A; [reflexivity|].
  simpl in H. apply N.eqb_eq in H. auto.
Qed.

Lemma filename_char_ok (c : char) :
  let d := if allowable (if (c <? 128)%N then c else ch "?")
              || N.eqb (if (c <? 128)%N then c else ch "?") (ch ".")
           then if (c <? 128)%N then c else ch "?"
           else ch "?" in
  allowable d || N.eqb d (ch ".") || N.eqb d (ch "?") = true.
Proof.
  intros d. unfold d.
  destruct (allowable (if (c <? 128)%N then c else ch "?")
            || N.eqb (if (c <? 128)%N then c else ch "?") (ch ".")) eqn:A.
  - cbv iota. apply orb_true_iff. left. exact A.
  - reflexivity.
Qed.

(** [filename_from_unicode] keeps the length of the name, returns only
    allowable characters, dots and question marks, changes nothing when
    applied a second time, and leaves exactly the names made of such
    characters as they are. *)
Theorem filename_from_unicode_presentable (name : str) :
  List.length (filename_from_unicode name) = List.length name
  /\ forallb (fun c => allowable c || N.eqb c (ch ".") || N.eqb c (ch "?"))
             (filename_from_unicode name) = true
  /\ filename_from_unicode (filename_from_unicode name)
     = filename_from_unicode name
  /\ (filename_from_unicode name = name
      <-> forallb (fun c => allowable c || N.eqb c (ch ".")
                            || N.eqb c (ch "?")) name = true).
Proof.
  assert (Ok : forall n,
             forallb (fun c => allowable c || N.eqb c (ch ".")
                               || N.eqb c (ch "?"))
                     (filename_from_unicode n) = true).
  { intros n. apply forallb_forall. intros d Hd.
    unfold filename_from_unicode, Py.encode_ascii_replace in Hd.
    rewrite map_map in Hd. apply in_map_iff in Hd.
    destruct Hd as [c [<- _]]. apply filename_char_ok. }
  assert (Fixed : forall n,
             forallb (fun c => allowable c || N.eqb c (ch ".")
                               || N.eqb c (ch "?")) n = true ->
             filename_from_unicode n = n).
  { intros n H. unfold filename_from_unicode, Py.encode_ascii_replace.
    rewrite map_map. rewrite <- (map_id n) at 2.
    apply map_ext_in. intros d Hd. rewrite forallb_forall in H.
    apply filename_char_fixed. apply H. exact Hd. }
  split.
  { unfold filename_from_unicode, Py.encode_ascii_replace.
    rewrite !length_map. reflexivity. }
  split; [apply Ok|]. split; [apply Fixed, Ok|].
  split; [intros E; rewrite <- E; apply Ok | apply Fixed].
Qed.

Lemma filename_from_unicode_presentable_witness :
  filename_from_unicode (lit "R&D (old).txt") = lit "R&D (old).txt".
Proof.
  apply (proj2 (proj2 (proj2 (filename_from_unicode_presentable
                                (lit "R&D (old).txt"))))).
  reflexivity.
Defined.

(** ** Sorted listings of DOS names *)

Section SortingFacts.

Variable A : Type.
Variable leb : A -> A -> bool.
Hypothesis leb_total : forall a b, leb a b = false -> leb b a = true.
Hypothesis leb_trans :
  forall a b c, leb a b = true -> leb b c = true -> leb a c = true.

Lemma insert_by_perm (x : A) (l : list A) :
  Permutation (x :: l) (insert_by leb x l).
Proof.
  induction l as [|y l IH]; simpl; [apply Permutation_refl|].
  destruct (leb x y); [apply Permutation_refl|].
  apply perm_trans with (y :: x :: l); [apply perm_swap|].
  apply perm_skip. exact IH.
Qed.

Lemma sort_by_perm (l : list A) : Permutation l (sort_by leb l).
Proof.
  induction l as [|x l IH]; simpl; [constructor|].
  apply perm_trans with (x :: sort_by leb l);
    [apply perm_skip; exact IH | apply insert_by_perm].
Qed.

Lemma insert_by_sorted (x : A) (l : list A) :
  StronglySorted (fun a b => leb a b = true) l ->
  StronglySorted (fun a b => leb a b = true) (insert_by leb x l).
Proof.
  induction 1 as [|y l Hl IH Hy]; simpl.
  - constructor; constructor.
  - destruct (leb x y) eqn:E.
    + constructor; [constructor; assumption|].
      constructor; [exact E|].
      apply Forall_impl with (P := fun b => leb y b = true); [|exact Hy].
      intros z Hz. exact (leb_trans E Hz).
    + constructor; [exact IH|].
      apply (Permutation_Forall (insert_by_perm x l)).
      constructor; [apply leb_total; exact E | exact Hy].
Qed.

Lemma sort_by_sorted (l : list A) :
  StronglySorted (fun a b => leb a b = true) (sort_by leb l).
Proof.
  induction l as [|x l IH]; simpl; [constructor|].
  apply insert_by_sorted. exact IH.
Qed.

End SortingFacts.

Lemma dosname_leb_spec (a b : str * str) :
  dosname_leb a b = true
  <-> (fst a <> fst b /\ Py.leb (fst a) (fst b) = true)
      \/ (fst a = fst b /\ Py.leb (snd a) (snd b) = true).
Proof.
  unfold dosname_leb. destruct (Py.eqb (fst a) (fst b)) eqn:E.
  - apply eqb_eq in E. split; [auto | intros [[N _]|[_ H]]; [contradiction | exact H]].
  - apply eqb_neq in E. split; [auto | intros [[_ H]|[N _]]; [exact H | contradiction]].
Qed.

Lemma dosname_leb_total (a b : str * str) :
  dosname_leb a b = false -> dosname_leb b a = true.
Proof.
  unfold dosname_leb. destruct (Py.eqb (fst a) (fst b)) eqn:E.
  - apply eqb_eq in E. rewrite E, eqb_refl. apply leb_total.
  - apply eqb_neq in E.
    replace (Py.eqb (fst b) (fst a)) with false
      by (symmetry; apply eqb_neq; congruence).
    apply leb_total.
Qed.

Lemma dosname_leb_trans (a b c : str * str) :
  dosname_leb a b = true -> dosname_leb b c = true -> dosname_leb a c = true.
Proof.
  rewrite !dosname_leb_spec.
  intros [[N1 L1]|[E1 L1]] [[N2 L2]|[E2 L2]].
  - left. split; [|exact (leb_trans _ _ _ L1 L2)].
    intros E. rewrite <- E in L2. apply N1. apply leb_antisym; assumption.
  - left. rewrite <- E2. auto.
  - left. rewrite E1. auto.
  - right. split; [congruence | exact (leb_trans _ _ _ L1 L2)].
Qed.

(** [filter_names] fails exactly when a name of the listing is not ASCII;
    otherwise it returns, in ascending order of (trunk, extension), the
    short names of the files that pass the test of the mask, one for each
    file that passes. *)
Theorem filter_names_sorted_listing (path : str) (files_list : list str)
        (mask : str) :
  (filter_names path files_list mask = None
   <-> exists f, In f files_list /\ decodes_ascii f = false)
  /\ (forall l,
         filter_names path files_list mask = Some l ->
         Permutation
           (filter (listed (fst (split_dosname mask false))
                           (snd (split_dosname mask false)))
                   (map (short_name path) files_list)) l
         /\ StronglySorted (fun a b => dosname_leb a b = true) l).
Proof.
  unfold filter_names.
  destruct (forallb decodes_ascii files_list) eqn:F.
  - destruct (split_dosname mask false) as [tm em]. cbn [fst snd].
    split.
    + split; [discriminate|]. intros [f [Hf Hd]].
      rewrite forallb_forall in F. rewrite (F f Hf) in Hd. discriminate.
    + intros l [= <-]. split.
      * apply sort_by_perm.
      * apply sort_by_sorted;
          [exact dosname_leb_total | exact dosname_leb_trans].
  - split; [|discriminate]. split; [intros _|reflexivity].
    destruct (forallb_forall decodes_ascii files_list) as [_ Hall].
    destruct (existsb (fun f => negb (decodes_ascii f)) files_list) eqn:Ex.
    + apply existsb_exists in Ex. destruct Ex as [f [Hf Hn]].
      exists f. split; [exact Hf | apply negb_true_iff; exact Hn].
    + rewrite Hall in F; [discriminate|]. intros f Hf.
      destruct (decodes_ascii f) eqn:D; [reflexivity|].
      exfalso. assert (T : existsb (fun f => negb (decodes_ascii f)) files_list = true).
      { apply existsb_exists. exists f. rewrite D. auto. }
      congruence.
Qed.

Lemma filter_names_sorted_listing_witness :
  StronglySorted (fun a b => dosname_leb a b = true)
                 [(lit "A", lit ""); (lit "NOTES", lit "TXT")].
Proof.
  apply (proj2 (filter_names_sorted_listing (lit "/d")
                  [lit "notes.txt"; lit ".hidden"; lit "a"] default_mask)).
  reflexivity.
Defined.

Lemma filter_names_In (path : str) (files_list : list str) (mask : str)
      (l : list (str * str)) :
  filter_names path files_list mask = Some l ->
  forall entry,
    In entry l
    <-> (exists f, In f files_list /\ short_name path f = entry)
        /\ listed (fst (split_dosname mask false))
                  (snd (split_dosname mask false)) entry = true.
Proof.
  unfold filter_names.
  destruct (forallb decodes_ascii files_list); [|discriminate].
  destruct (split_dosname mask false) as [tm em]. cbn [fst snd].
  intros [= <-] entry.
  assert (P := sort_by_perm dosname_leb
                 (filter (listed tm em) (map (short_name path) files_list))).
  split.
  - intros H. apply (Permutation_in _ (Permutation_sym P)) in H.
    apply filter_In in H. destruct H as [H L]. split; [|exact L].
    apply in_map_iff in H. destruct H as [f [E Hf]]. exists f. auto.
  - intros [[f [Hf E]] L]. apply (Permutation_in _ P).
    apply filter_In. split; [|exact L].
    apply in_map_iff. exists f. auto.
Qed.

Lemma length_filter_le {A} (p : A -> bool) (l : list A) :
  List.length (filter p l) <= List.length l.
Proof.
  induction l as [|a l IH]; simpl; [lia|].
  destruct (p a); simpl; lia.
Qed.

(** With the default mask [*.*], [filter_names] lists a short name exactly
    when it is the short name of a file of the listing, holds no newline,
    and is not a hidden dotfile: its trunk is not empty, or its extension
    is empty or a single dot. *)
Theorem filter_names_default_mask (path : str) (files_list : list str)
        (l : list (str * str)) :
  filter_names path files_list default_mask = Some l ->
  forall t e,
    In (t, e) l
    <-> (exists f, In f files_list /\ short_name path f = (t, e))
        /\ ~ In newline t /\ ~ In newline e
        /\ (t <> [] \/ e = [] \/ e = lit ".").
Proof.
  intros H t e. rewrite (filter_names_In _ _ _ H (t, e)).
  change (split_dosname default_mask false) with (lit "*", lit "*").
  cbn [fst snd listed]. rewrite !match_wildcard_star.
  rewrite !andb_true_iff, !negb_true_iff, !orb_true_iff, negb_true_iff.
  rewrite eqb_eq.
  assert (Nl : forall s, Py.contains newline s = false <-> ~ In newline s).
  { intros s. rewrite <- contains_In.
    destruct (Py.contains newline s); split; congruence. }
  rewrite !Nl.
  assert (T : Py.truthy t = true <-> t <> [])
    by (destruct t; simpl; split; congruence).
  assert (E : Py.truthy e = false <-> e = [])
    by (destruct e; simpl; split; congruence).
  rewrite T, E. tauto.
Qed.

Lemma filter_names_default_mask_witness :
  In (lit "LONGFIL+", lit "BAS")
     [(lit "", lit "."); (lit "LONGFIL+", lit "BAS")].
Proof.
  apply (@filter_names_default_mask (lit "/d")
           [lit ".."; lit ".profile"; lit "LongFileName.bas"]
           [(lit "", lit "."); (lit "LONGFIL+", lit "BAS")] eq_refl
           (lit "LONGFIL+") (lit "BAS")).
  split.
  - exists (lit "LongFileName.bas"). split; [simpl; tauto | reflexivity].
  - split; [|split; [|left; discriminate]];
      intros H; simpl in H;
      repeat (destruct H as [H|H]; [discriminate H|]); exact H.
Defined.

(** Whatever the mask, [filter_names] lists no more entries than there
    are files, every entry is the short name of a file and matches the
    two halves of the mask, and no entry has an empty trunk with an
    extension other than the empty one and the single dot. *)
Theorem filter_names_hides_dotfiles (path : str) (files_list : list str)
        (mask : str) (l : list (str * str)) :
  filter_names path files_list mask = Some l ->
  List.length l <= List.length files_list
  /\ forall t e,
      In (t, e) l ->
      (exists f, In f files_list /\ short_name path f = (t, e))
      /\ match_wildcard t (fst (split_dosname mask false)) = true
      /\ match_wildcard e (snd (split_dosname mask false)) = true
      /\ (t <> [] \/ e = [] \/ e = lit ".").
Proof.
  intros H. split.
  - revert H. unfold filter_names.
    destruct (forallb decodes_ascii files_list); [|discriminate].
    destruct (split_dosname mask false) as [tm em]. intros [= <-].
    rewrite <- (Permutation_length (sort_by_perm dosname_leb _)).
    etransitivity; [apply length_filter_le|].
    rewrite length_map. apply Nat.le_refl.
  - intros t e Hin. apply (filter_names_In _ _ _ H) in Hin.
    destruct Hin as [Hf L]. split; [exact Hf|].
    cbn [listed] in L. apply andb_true_iff in L. destruct L as [L V].
    apply andb_true_iff in L. destruct L as [L1 L2].
    split; [exact L1|]. split; [exact L2|].
    apply orb_true_iff in V. destruct V as [V|V].
    + apply orb_true_iff in V. destruct V as [V|V].
      * left. destruct t; [discriminate V | discriminate].
      * right. left. destruct e; [reflexivity | discriminate V].
    + right. right. apply eqb_eq. exact V.
Qed.

Lemma filter_names_hides_dotfiles_witness :
  List.length [(lit "A", lit "BAS")]
  <= List.length [lit ".profile"; lit "a.bas"; lit "b.txt"].
Proof.
  apply (@filter_names_hides_dotfiles (lit "/d")
           [lit ".profile"; lit "a.bas"; lit "b.txt"] (lit "*.bas")
           [(lit "A", lit "BAS")] eq_refl).
Defined.

(** ** What the matchers return *)

(** A name [match_dosname] returns is of the kind asked for and has the
    DOS name of the name it was asked to match. *)
Theorem match_dosname_sound (fs : filesystem) (dosname path : str)
        (isdir : bool) (f : str) :
  result (match_dosname fs dosname path isdir) = Returns (Some f) ->
  istype_answer fs path f isdir = true
  /\ split_dosname f false = split_dosname dosname false.
Proof.
  rewrite match_dosname_result.
  destruct (existsb (fun c => (128 <=? c)%N) dosname); [discriminate|].
  destruct (istype_answer fs path dosname isdir) eqn:T.
  { intros [= <-]. auto. }
  destruct (has_nul path); [discriminate|].
  destruct (fs_listdir fs path) as [names|]; [|discriminate].
  intros [= H]. apply find_some in H. destruct H as [_ H].
  apply entry_matches_spec in H. destruct H as [S K].
  split; [exact K|]. rewrite S. symmetry. apply surjective_pairing.
Qed.

Lemma match_dosname_sound_witness :
  istype_answer (files_fs (lit "/d") [lit "Notes.txt"]) (lit "/d")
                (lit "Notes.txt") false = true
  /\ split_dosname (lit "Notes.txt") false
     = split_dosname (lit "NOTES.TXT") false.
Proof.
  apply (@match_dosname_sound (files_fs (lit "/d") [lit "Notes.txt"])
           (lit "NOTES.TXT") (lit "/d") false (lit "Notes.txt")).
  reflexivity.
Defined.

(** When [match_dosname] finds nothing for an ASCII name in a directory
    the host lists, the name itself is not there and no entry of the
    directory with its DOS name is of the kind asked for. *)
Theorem match_dosname_complete (fs : filesystem) (dosname path : str)
        (isdir : bool) (names : list str) :
  forallb (fun c => (c <? 128)%N) dosname = true ->
  has_nul path = false ->
  fs_listdir fs path = Some names ->
  result (match_dosname fs dosname path isdir) = Returns None ->
  istype_answer fs path dosname isdir = false
  /\ forall g, In g names ->
               split_dosname g false = split_dosname dosname false ->
               istype_answer fs path g isdir = false.
Proof.
  intros Hascii Hnul Hlist. rewrite match_dosname_result.
  replace (existsb (fun c => (128 <=? c)%N) dosname) with false.
  2:{ symmetry. apply not_true_iff_false. intros Ex.
      apply existsb_exists in Ex. destruct Ex as [c [Hc Hge]].
      rewrite forallb_forall in Hascii. specialize (Hascii c Hc).
      apply N.ltb_lt in Hascii. apply N.leb_le in Hge. lia. }
  destruct (istype_answer fs path dosname isdir) eqn:T; [discriminate|].
  rewrite Hnul, Hlist. intros [= H]. split; [reflexivity|].
  intros g Hg Hs.
  pose proof (@find_none _ _ _ H g (proj2 (sorted_In names g) Hg)) as N.
  destruct (istype_answer fs path g isdir) eqn:K; [|reflexivity].
  rewrite (proj2 (entry_matches_spec fs _ _ path isdir g)) in N;
    [discriminate|].
  split; [|exact K]. rewrite Hs. apply surjective_pairing.
Qed.

Lemma match_dosname_complete_witness :
  istype_answer (files_fs (lit "/d") [lit "README"]) (lit "/d")
                (lit "NOTES.TXT") false = false.
Proof.
  refine (proj1 (@match_dosname_complete
                   (files_fs (lit "/d") [lit "README"])
                   (lit "NOTES.TXT") (lit "/d") false [lit "README"]
                   _ _ _ _)); reflexivity.
Defined.

(** How [match_filename] ends, by the first lines and the settled name. *)
Lemma match_filename_settles (fs : filesystem) (name defext path : str)
      (name_err : option basic_error) (isdir : bool) :
  name <> [] \/ defext <> [] ->
  match_filename fs name defext path name_err isdir
  = match dotted_probe path name defext isdir with
    | [] => match_settled_name fs (settled_name name defext) path
                               name_err isdir
    | _ :: _ =>
        b <- istype fs path name isdir ;;
        if b then ret name
        else match_settled_name fs (settled_name name defext) path
                                name_err isdir
    end.
Proof.
  intros Hne.
  unfold match_filename, dotted_probe, settled_name, appends_defext,
    single_trailing_dot.
  destruct (Py.truthy defext && negb (Py.contains (ch ".") name)) eqn:D;
    [reflexivity|].
  destruct name as [|c name].
  - destruct defext; [destruct Hne; congruence | discriminate D].
  - cbn [Py.last_char].
    destruct (N.eqb (last (c :: name) 0%N) (ch ".")
              && negb (Py.contains (ch ".") (Py.but_last (c :: name))));
      reflexivity.
Qed.

Lemma match_settled_name_returns (fs : filesystem) (s path : str)
      (name_err : option basic_error) (isdir : bool) (n : str) :
  result (match_settled_name fs s path name_err isdir) = Returns n ->
  istype_answer fs path n isdir = true
  \/ (name_err = None
      /\ n = join_dosname (fst (split_dosname s false))
                          (snd (split_dosname s false)) false
      /\ not_allowable_chars (fst (split_dosname s false))
                             (snd (split_dosname s false)) = []).
Proof.
  unfold match_settled_name. rewrite bind_istype. cbn [result snd].
  destruct (istype_answer fs path s isdir) eqn:T.
  { intros [= <-]. left. exact T. }
  destruct (split_dosname s false) as [trunk ext]. cbn [fst snd].
  destruct (not_allowable_chars trunk ext) as [|c bad]; [|discriminate].
  rewrite result_bind.
  destruct (result (match_dosname fs (join_dosname trunk ext false) path isdir))
    as [[[|d f]|]|e] eqn:M; try discriminate.
  - destruct name_err; [discriminate|]. intros [= <-]. right. auto.
  - intros [= <-]. left. apply (match_dosname_sound _ _ _ _ M).
  - destruct name_err; [discriminate|]. intros [= <-]. right. auto.
Qed.

(** A name [match_filename] returns is of the kind asked for in the
    directory, or else -- and only when the caller asked for a new name --
    it is the 8.3 name joined from the split of the settled name, all of
    whose characters are allowable. *)
Theorem match_filename_returns (fs : filesystem) (name defext path : str)
        (name_err : option basic_error) (isdir : bool) (n : str) :
  result (match_filename fs name defext path name_err isdir) = Returns n ->
  istype_answer fs path n isdir = true
  \/ (name_err = None
      /\ n = join_dosname
               (fst (split_dosname (settled_name name defext) false))
               (snd (split_dosname (settled_name name defext) false)) false
      /\ not_allowable_chars
           (fst (split_dosname (settled_name name defext) false))
           (snd (split_dosname (settled_name name defext) false)) = []).
Proof.
  intros H.
  assert (Hne : name <> [] \/ defext <> []).
  { destruct name; [|left; discriminate].
    destruct defext; [discriminate H | right; discriminate]. }
  rewrite (@match_filename_settles fs name defext path name_err isdir Hne)
    in H.
  destruct (dotted_probe path name defext isdir).
  - exact (match_settled_name_returns _ _ _ _ _ H).
  - rewrite bind_istype in H. cbn [result snd] in H.
    destruct (istype_answer fs path name isdir) eqn:T.
    + injection H as <-. left. exact T.
    + exact (match_settled_name_returns _ _ _ _ _ H).
Qed.

Lemma match_filename_returns_witness :
  istype_answer empty_fs (lit "/d") (lit "PROGRAM.BAS") false = true
  \/ (@None basic_error = None
      /\ lit "PROGRAM.BAS"
         = join_dosname
             (fst (split_dosname (settled_name (lit "program") (lit "BAS")) false))
             (snd (split_dosname (settled_name (lit "program") (lit "BAS")) false))
             false
      /\ not_allowable_chars
           (fst (split_dosname (settled_name (lit "program") (lit "BAS")) false))
           (snd (split_dosname (settled_name (lit "program") (lit "BAS")) false))
         = []).
Proof.
  apply (@match_filename_returns empty_fs (lit "program") (lit "BAS")
           (lit "/d") None false (lit "PROGRAM.BAS")).
  reflexivity.
Defined.

(** A name that exists as typed is returned as typed, after one probe (two
    when a name with a single trailing dot is tried with and without the
    dot), and the directory is never listed: when the dotted name is
    probed and is there it is the one returned, and otherwise the settled
    name is, if it is there. *)
Theorem match_filename_exact_first (fs : filesystem) (name defext path : str)
        (name_err : option basic_error) (isdir : bool) :
  name <> [] \/ defext <> [] ->
  (dotted_probe path name defext isdir <> [] ->
   result (istype fs path name isdir) = Returns true ->
   match_filename fs name defext path name_err isdir
   = ([istype_call path name isdir], Returns name))
  /\ ((dotted_probe path name defext isdir <> [] ->
       result (istype fs path name isdir) = Returns false) ->
      result (istype fs path (settled_name name defext) isdir)
      = Returns true ->
      match_filename fs name defext path name_err isdir
      = (dotted_probe path name defext isdir
           ++ [istype_call path (settled_name name defext) isdir],
         Returns (settled_name name defext))).
Proof.
  intros Hne. rewrite (match_filename_settles fs path name_err isdir Hne).
  assert (Probe : dotted_probe path name defext isdir = []
                  \/ dotted_probe path name defext isdir
                     = [istype_call path name isdir]).
  { unfold dotted_probe. destruct (appends_defext name defext); [auto|].
    destruct (single_trailing_dot name); auto. }
  split.
  - intros Hd Ht. apply istype_result in Ht.
    destruct Probe as [E|E]; [congruence|]. rewrite E.
    rewrite bind_istype, Ht. reflexivity.
  - intros Hd Hs. apply istype_result in Hs.
    destruct Probe as [E|E]; rewrite E in *.
    + unfold match_settled_name. rewrite bind_istype, Hs. reflexivity.
    + assert (Ht : istype_answer fs path name isdir = false)
        by (apply istype_result; apply Hd; discriminate).
      rewrite bind_istype, Ht. unfold match_settled_name.
      rewrite bind_istype, Hs. reflexivity.
Qed.

Lemma match_filename_exact_first_witness :
  match_filename (files_fs (lit "/d") [lit "LongFileName.bas"])
                 (lit "LongFileName") (lit "bas") (lit "/d") None false
  = ([istype_call (lit "/d") (lit "LongFileName.bas") false],
     Returns (lit "LongFileName.bas")).
Proof.
  refine (proj2 (@match_filename_exact_first
                   (files_fs (lit "/d") [lit "LongFileName.bas"])
                   (lit "LongFileName") (lit "bas") (lit "/d") None false
                   (or_introl _)) _ _).
  - discriminate.
  - intros H. elim H. reflexivity.
  - reflexivity.
Defined.

Lemma but_last_app (a b : str) :
  b <> [] -> Py.but_last (a ++ b) = a ++ Py.but_last b.
Proof. intros H. unfold Py.but_last. apply removelast_app. exact H. Qed.

(** The default extension is for names without a dot only: with a dot in
    the name it makes no difference, and without one (and an extension
    that is not empty) the call is the call on the name with the dot and
    the extension appended. *)
Theorem match_filename_default_extension
        (fs : filesystem) (name defext path : str)
        (name_err : option basic_error) (isdir : bool) :
  (Py.contains (ch ".") name = true ->
   match_filename fs name defext path name_err isdir
   = match_filename fs name [] path name_err isdir)
  /\ (Py.contains (ch ".") name = false -> defext <> [] ->
      match_filename fs name defext path name_err isdir
      = match_filename fs (name ++ lit "." ++ defext) [] path name_err isdir).
Proof.
  split.
  - intros Hdot. unfold match_filename. rewrite Hdot.
    rewrite andb_false_r. reflexivity.
  - intros Hno Hext. unfold match_filename at 1. rewrite Hno.
    destruct defext as [|d defext]; [congruence|].
    cbn [Py.truthy negb andb].
    assert (Hne : name ++ lit "." ++ d :: defext <> [])
      by (destruct name; discriminate).
    rewrite (@match_filename_settles fs (name ++ lit "." ++ d :: defext) []
               path name_err isdir (or_introl Hne)).
    assert (Single : single_trailing_dot (name ++ lit "." ++ d :: defext)
                     = false).
    { unfold single_trailing_dot.
      destruct (Py.last_char (name ++ lit "." ++ d :: defext)); [|reflexivity].
      apply andb_false_iff. right. apply negb_false_iff.
      change (name ++ lit "." ++ d :: defext)
        with (name ++ ch "." :: d :: defext).
      rewrite (@but_last_app name (ch "." :: d :: defext)) by discriminate.
      apply contains_In. apply in_or_app. right.
      unfold Py.but_last. simpl. left. reflexivity. }
    unfold dotted_probe, settled_name, appends_defext.
    cbn [Py.truthy andb]. rewrite Single. reflexivity.
Qed.

Lemma match_filename_default_extension_witness :
  match_filename empty_fs (lit "PROG") (lit "BAS") (lit "/d") None false
  = match_filename empty_fs (lit "PROG" ++ lit "." ++ lit "BAS") []
                   (lit "/d") None false.
Proof.
  refine (proj2 (match_filename_default_extension empty_fs (lit "PROG")
                   (lit "BAS") (lit "/d") None false) _ _).
  - reflexivity.
  - discriminate.
Defined.

(** ** Resolving a path *)

Lemma match_filename_raises (fs : filesystem) (name defext path : str)
      (name_err : option basic_error) (isdir : bool) :
  match result (match_filename fs name defext path name_err isdir) with
  | Returns _ => True
  | Raises (BASICError e) => e = BAD_FILE_NAME \/ name_err = Some e
  | Raises IndexError => name = [] /\ defext = []
  | Raises TypeError => has_nul path = true
  end.
Proof.
  assert (Settled : forall s,
    match result (match_settled_name fs s path name_err isdir) with
    | Returns _ => True
    | Raises (BASICError e) => e = BAD_FILE_NAME \/ name_err = Some e
    | Raises IndexError => name = [] /\ defext = []
    | Raises TypeError => has_nul path = true
    end).
  { intros s.
    pose proof (match_settled_name_result fs s path name_err isdir) as R.
    destruct (result (match_settled_name fs s path name_err isdir))
      as [n|[e| |]]; try exact R; [|contradiction].
    destruct R as [[R _]|[R _]]; auto. }
  destruct name as [|c name]; [destruct defext as [|d defext]|].
  - simpl. auto.
  - rewrite match_filename_settles by (right; discriminate).
    destruct (dotted_probe path [] (d :: defext) isdir); [apply Settled|].
    rewrite bind_istype. cbn [result snd].
    destruct (istype_answer fs path [] isdir); [exact I | apply Settled].
  - rewrite match_filename_settles by (left; discriminate).
    destruct (dotted_probe path (c :: name) defext isdir); [apply Settled|].
    rewrite bind_istype. cbn [result snd].
    destruct (istype_answer fs path (c :: name) isdir);
      [exact I | apply Settled].
Qed.

Lemma walk_elements_raises (fs : filesystem)
      (path_err : option basic_error) (elements : list str) :
  forall path,
    match result (walk_elements fs path_err path elements) with
    | Returns _ => True
    | Raises (BASICError e) => e = BAD_FILE_NAME \/ path_err = Some e
    | Raises IndexError => False
    | Raises TypeError => True
    end.
Proof.
  induction elements as [|e rest IH]; intros path; [exact I|].
  cbn [walk_elements]. destruct e as [|c e]; cbn [Py.truthy]; [apply IH|].
  rewrite result_bind.
  pose proof (match_filename_raises fs (c :: e) [] path path_err true) as R.
  destruct (result (match_filename fs (c :: e) [] path path_err true))
    as [found|[err| |]].
  - apply IH.
  - exact R.
  - destruct R as [R _]. discriminate R.
  - exact I.
Qed.

(** [native_path_elements] never fails on an index: the empty elements
    of a path are skipped before [match_filename] sees them.  The BASIC
    errors it raises are bad file number, path not found, bad file name,
    and the error the caller passed for a directory that is not found. *)
Theorem native_path_elements_errors
        (fs : filesystem) (str_to_unicode : str -> str)
        (path_without_drive : str) (path_err : option basic_error)
        (native_root native_cwd : str) (join_name : bool) :
  match result (native_path_elements fs str_to_unicode path_without_drive
                                     path_err native_root native_cwd
                                     join_name) with
  | Returns _ => True
  | Raises (BASICError e) =>
      e = BAD_FILE_NUMBER \/ e = PATH_NOT_FOUND \/ e = BAD_FILE_NAME
      \/ path_err = Some e
  | Raises IndexError => False
  | Raises TypeError => True
  end.
Proof.
  unfold native_path_elements.
  destruct (Py.contains (ch "/") (str_to_unicode path_without_drive));
    [simpl; auto|].
  destruct (negb (Py.truthy native_root)); [simpl; auto|].
  destruct (path_elements (str_to_unicode path_without_drive) native_cwd
                          join_name) as [name elements].
  rewrite result_bind.
  pose proof (walk_elements_raises fs path_err elements native_root) as R.
  destruct (result (walk_elements fs path_err native_root elements))
    as [p|[e| |]]; try exact R.
  destruct R; auto.
Qed.

Lemma split_not_nil (sep : char) (s : str) : Py.split sep s <> [].
Proof.
  destruct s as [|c s]; simpl; [discriminate|].
  destruct (N.eqb c sep); [discriminate|].
  destruct (Py.split sep s); discriminate.
Qed.

Lemma split_parts (sep : char) (s : str) :
  forall e, In e (Py.split sep s) ->
            ~ In sep e /\ forall c, In c e -> In c s.
Proof.
  induction s as [|c s IH]; simpl.
  - intros e [<-|[]]. split; [intros [] | intros c []].
  - destruct (N.eqb_spec c sep) as [->|Hne].
    + intros e [<-|He]; [split; [intros [] | intros c []]|].
      destruct (IH e He) as [A B]. split; [exact A | auto].
    + destruct (Py.split sep s) as [|t r] eqn:S.
      * intros e [<-|[]]. split; [intros [F|[]]; congruence|].
        intros d [<-|[]]. auto.
      * intros e [<-|He].
        -- destruct (IH t (or_introl eq_refl)) as [A B]. split.
           ++ intros [F|F]; [congruence | exact (A F)].
           ++ intros d [<-|Hd]; auto.
        -- destruct (IH e (or_intror He)) as [A B]. split; [exact A | auto].
Qed.

Lemma last_app_right {A} (a b : list A) (d : A) :
  b <> [] -> last (a ++ b) d = last b d.
Proof.
  intros H. destruct (exists_last H) as [q [z ->]].
  rewrite app_assoc, !last_last. reflexivity.
Qed.

Lemma last_In {A} (l : list A) (d : A) : l <> [] -> In (last l d) l.
Proof.
  intros H. destruct (exists_last H) as [q [z ->]].
  rewrite last_last. apply in_or_app. right. left. reflexivity.
Qed.

Lemma path_elements_name (p cwd : str) (join_name : bool) :
  fst (path_elements p cwd join_name)
  = if join_name then []
    else Py.strip_unicode (last (Py.split (ch "\") p) []).
Proof.
  unfold path_elements.
  set (elements :=
         match p with
         | c :: _ =>
             if N.eqb c (ch "\") then Py.split (ch "\") p
             else Py.split (ch "/") cwd ++ Py.split (ch "\") p
         | [] => Py.split (ch "/") cwd ++ Py.split (ch "\") p
         end).
  assert (L : last elements [] = last (Py.split (ch "\") p) []).
  { unfold elements. destruct p as [|c p']; [apply last_app_right, split_not_nil|].
    destruct (N.eqb c (ch "\")); [reflexivity|].
    apply last_app_right, split_not_nil. }
  assert (Ne : elements <> []).
  { unfold elements. destruct p as [|c p'].
    - intros E. apply app_eq_nil in E. destruct E as [_ E].
      exact (split_not_nil _ _ E).
    - destruct (N.eqb c (ch "\")); [apply split_not_nil|].
      intros E. apply app_eq_nil in E. destruct E as [_ E].
      exact (split_not_nil _ _ E). }
  destruct join_name; cbn [orb]; [reflexivity|].
  replace (0 <? List.length (map Py.strip_unicode elements)) with true.
  2:{ symmetry. apply Nat.ltb_lt. rewrite length_map.
      destruct elements; [congruence | simpl; lia]. }
  cbn [negb fst].
  change (@nil char) with (Py.strip_unicode []) at 1.
  rewrite last_map, L. reflexivity.
Qed.

(** A call of [native_path_elements] that succeeds was given a path
    without a slash and a root that is not empty; the name it returns is
    empty when only the directory was asked for, and otherwise what follows
    the last backslash of the path, stripped of whitespace, which holds
    neither a backslash nor a slash. *)
Theorem native_path_elements_name
        (fs : filesystem) (str_to_unicode : str -> str)
        (path_without_drive : str) (path_err : option basic_error)
        (native_root native_cwd : str) (join_name : bool)
        (root rel name : str) :
  result (native_path_elements fs str_to_unicode path_without_drive
                               path_err native_root native_cwd join_name)
  = Returns (root, rel, name) ->
  ~ In (ch "/") (str_to_unicode path_without_drive)
  /\ native_root <> []
  /\ name = (if join_name then []
             else Py.strip_unicode
                    (last (Py.split (ch "\") (str_to_unicode path_without_drive))
                          []))
  /\ ~ In (ch "\") name /\ ~ In (ch "/") name.
Proof.
  unfold native_path_elements.
  destruct (Py.contains (ch "/") (str_to_unicode path_without_drive)) eqn:S;
    [discriminate|].
  assert (NoSlash : ~ In (ch "/") (str_to_unicode path_without_drive)).
  { intros F. apply contains_In in F. congruence. }
  destruct native_root as [|r native_root]; [discriminate|].
  cbn [Py.truthy negb].
  pose proof (path_elements_name (str_to_unicode path_without_drive)
                                 native_cwd join_name) as N.
  destruct (path_elements (str_to_unicode path_without_drive) native_cwd
                          join_name) as [nm elements].
  cbn [fst] in N. rewrite result_bind.
  destruct (result (walk_elements fs path_err (r :: native_root) elements))
    as [p|e]; [|discriminate].
  intros [= _ _ <-].
  split; [exact NoSlash|]. split; [discriminate|]. split; [exact N|].
  rewrite N. destruct join_name; [split; intros []|].
  assert (P := split_parts (ch "\") (str_to_unicode path_without_drive)
                 (last (Py.split (ch "\") (str_to_unicode path_without_drive)) [])
                 (last_In _ (@split_not_nil _ _))).
  destruct P as [A B].
  split; intros F; apply In_strip in F; [exact (A F) | exact (NoSlash (B _ F))].
Qed.

Lemma native_path_elements_name_witness :
  lit "B" = Py.strip_unicode
              (last (Py.split (ch "\") (ascii_codepage (lit "\A\..\ B "))) []).
Proof.
  refine (proj1 (proj2 (proj2
            (@native_path_elements_name empty_fs ascii_codepage
               (lit "\A\..\ B ") None (lit "/home") (lit "") false
               (lit "/home") [] (lit "B") _)))).
  reflexivity.
Defined.

(** ** The calls made to the file system *)

Lemma trace_bind {A B} (m : io A) (k : A -> io B) :
  trace (bind m k)
  = trace m ++ match result m with
               | Returns a => trace (k a)
               | Raises _ => []
               end.
Proof.
  destruct m as [l [a|e]]; unfold bind, trace, result; simpl.
  - destruct (k a); reflexivity.
  - symmetry. apply app_nil_r.
Qed.

Lemma listings_app (a b : list fs_call) :
  listings (a ++ b) = listings a + listings b.
Proof. unfold listings. rewrite filter_app, length_app. reflexivity. Qed.

Lemma listings_istype_call (path x : str) (isdir : bool) :
  listings [istype_call path x isdir] = 0.
Proof. unfold istype_call. destruct isdir; reflexivity. Qed.

Lemma scan_names_calls (fs : filesystem) (trunk ext path : str)
      (isdir : bool) (all_names : list str) :
  Forall (call_in path isdir)
         (trace (scan_names fs trunk ext path isdir all_names))
  /\ listings (trace (scan_names fs trunk ext path isdir all_names)) = 0.
Proof.
  induction all_names as [|f rest [IH1 IH2]]; [split; [constructor | reflexivity]|].
  cbn [scan_names].
  destruct (dosname_eqb (split_dosname f false) (trunk, ext)); [|auto].
  rewrite bind_istype. cbn [trace fst].
  destruct (istype_answer fs path f isdir).
  - split; [|apply listings_istype_call].
    constructor; [right; exists f; reflexivity | constructor].
  - split.
    + constructor; [right; exists f; reflexivity | exact IH1].
    + change (istype_call path f isdir
                :: trace (scan_names fs trunk ext path isdir rest))
        with ([istype_call path f isdir]
                ++ trace (scan_names fs trunk ext path isdir rest)).
      rewrite listings_app, listings_istype_call, IH2. reflexivity.
Qed.

Lemma match_dosname_calls (fs : filesystem) (dosname path : str)
      (isdir : bool) :
  Forall (call_in path isdir) (trace (match_dosname fs dosname path isdir))
  /\ listings (trace (match_dosname fs dosname path isdir)) <= 1.
Proof.
  unfold match_dosname.
  destruct (existsb (fun c => (128 <=? c)%N) dosname);
    [split; [apply Forall_nil | unfold listings; simpl; lia]|].
  rewrite bind_istype. cbn [trace fst].
  destruct (istype_answer fs path dosname isdir).
  { split; [|rewrite listings_istype_call; lia].
    constructor; [right; exists dosname; reflexivity | constructor]. }
  destruct (split_dosname dosname false) as [trunk ext].
  rewrite trace_bind. unfold os_listdir. cbn [trace result fst snd].
  assert (Tail : forall t,
             Forall (call_in path isdir) t -> listings t = 0 ->
             Forall (call_in path isdir)
                    (istype_call path dosname isdir
                       :: [Call_listdir path] ++ t)
             /\ listings (istype_call path dosname isdir
                            :: [Call_listdir path] ++ t) <= 1).
  { intros t Ft Lt. split.
    - constructor; [right; exists dosname; reflexivity|].
      constructor; [left; reflexivity | exact Ft].
    - change (istype_call path dosname isdir :: [Call_listdir path] ++ t)
        with ([istype_call path dosname isdir] ++ [Call_listdir path] ++ t).
      rewrite !listings_app, listings_istype_call, Lt. simpl. lia. }
  destruct (has_nul path); [apply Tail; [constructor | reflexivity]|].
  destruct (fs_listdir fs path) as [names|];
    [|apply Tail; [constructor | reflexivity]].
  destruct (scan_names_calls fs trunk ext path isdir (Py.sorted names)).
  apply Tail; assumption.
Qed.

Lemma match_settled_name_calls (fs : filesystem) (s path : str)
      (name_err : option basic_error) (isdir : bool) :
  Forall (call_in path isdir)
         (trace (match_settled_name fs s path name_err isdir))
  /\ listings (trace (match_settled_name fs s path name_err isdir)) <= 1.
Proof.
  unfold match_settled_name. rewrite bind_istype. cbn [trace fst].
  assert (Head : forall t,
             Forall (call_in path isdir) t -> listings t <= 1 ->
             Forall (call_in path isdir) (istype_call path s isdir :: t)
             /\ listings (istype_call path s isdir :: t) <= 1).
  { intros t Ft Lt. split.
    - constructor; [right; exists s; reflexivity | exact Ft].
    - change (istype_call path s isdir :: t)
        with ([istype_call path s isdir] ++ t).
      rewrite listings_app, listings_istype_call. exact Lt. }
  destruct (istype_answer fs path s isdir);
    [apply Head; [apply Forall_nil | unfold listings; simpl; lia]|].
  destruct (split_dosname s false) as [trunk ext].
  destruct (not_allowable_chars trunk ext);
    [|apply Head; [apply Forall_nil | unfold listings; simpl; lia]].
  rewrite trace_bind.
  destruct (match_dosname_calls fs (join_dosname trunk ext false) path isdir)
    as [F L].
  assert (E : forall r : outcome (option str),
             match r with
             | Returns fullname =>
                 trace (match fullname with
                        | Some (c :: f) => ret (c :: f)
                        | _ => match name_err with
                               | None => ret (join_dosname trunk ext false)
                               | Some e => raise (BASICError e)
                               end
                        end)
             | Raises _ => []
             end = []).
  { intros [[[|c f]|]|e]; try reflexivity; destruct name_err; reflexivity. }
  rewrite E, app_nil_r. apply Head; assumption.
Qed.

(** Whatever [match_filename] asks the file system concerns the directory
    it was given and the kind it was asked for: it probes names in it for
    that kind and lists it, and it lists it at most once. *)
Theorem match_filename_calls (fs : filesystem) (name defext path : str)
        (name_err : option basic_error) (isdir : bool) :
  Forall (call_in path isdir)
         (trace (match_filename fs name defext path name_err isdir))
  /\ listings (trace (match_filename fs name defext path name_err isdir))
     <= 1.
Proof.
  destruct name as [|c name]; [destruct defext as [|d defext]|].
  - split; [apply Forall_nil | unfold listings; simpl; lia].
  - rewrite match_filename_settles by (right; discriminate).
    destruct (dotted_probe path [] (d :: defext) isdir);
      [apply match_settled_name_calls|].
    rewrite bind_istype. cbn [trace fst].
    destruct (istype_answer fs path [] isdir).
    + split; [|rewrite listings_istype_call; lia].
      constructor; [right; exists []; reflexivity | constructor].
    + destruct (match_settled_name_calls fs (settled_name [] (d :: defext))
                  path name_err isdir) as [F L].
      split; [constructor; [right; exists []; reflexivity | exact F]|].
      match goal with
      | |- listings (?a :: ?t) <= 1 =>
          change (a :: t) with ([a] ++ t);
          rewrite listings_app, listings_istype_call; exact L
      end.
  - rewrite match_filename_settles by (left; discriminate).
    destruct (dotted_probe path (c :: name) defext isdir);
      [apply match_settled_name_calls|].
    rewrite bind_istype. cbn [trace fst].
    destruct (istype_answer fs path (c :: name) isdir).
    + split; [|rewrite listings_istype_call; lia].
      constructor; [right; exists (c :: name); reflexivity | constructor].
    + destruct (match_settled_name_calls fs
                  (settled_name (c :: name) defext) path name_err isdir)
        as [F L].
      split; [constructor; [right; exists (c :: name); reflexivity | exact F]|].
      match goal with
      | |- listings (?a :: ?t) <= 1 =>
          change (a :: t) with ([a] ++ t);
          rewrite listings_app, listings_istype_call; exact L
      end.
Qed.

Lemma walk_elements_calls (fs : filesystem)
      (path_err : option basic_error) (elements : list str) :
  forall path,
    Forall (fun c => forall n, c <> Call_isfile n)
           (trace (walk_elements fs path_err path elements)).
Proof.
  induction elements as [|e rest IH]; intros path; [constructor|].
  cbn [walk_elements]. destruct (Py.truthy e); [|apply IH].
  rewrite trace_bind. apply Forall_app. split.
  - destruct (match_filename_calls fs e [] path path_err true) as [F _].
    apply Forall_impl with (P := call_in path true); [|exact F].
    intros c [->|[x ->]] n; discriminate.
  - destruct (result (match_filename fs e [] path path_err true));
      [apply IH | constructor].
Qed.

(** Resolving a path asks the file system about directories only: the
    calls [native_path_elements] makes are probes for a directory and
    listings, never a probe for a regular file. *)
Theorem native_path_elements_asks_directories
        (fs : filesystem) (str_to_unicode : str -> str)
        (path_without_drive : str) (path_err : option basic_error)
        (native_root native_cwd : str) (join_name : bool) :
  Forall (fun c => forall n, c <> Call_isfile n)
         (trace (native_path_elements fs str_to_unicode path_without_drive
                                      path_err native_root native_cwd
                                      join_name)).
Proof.
  unfold native_path_elements.
  destruct (Py.contains (ch "/") (str_to_unicode path_without_drive));
    [constructor|].
  destruct (negb (Py.truthy native_root)); [constructor|].
  destruct (path_elements (str_to_unicode path_without_drive) native_cwd
                          join_name) as [name elements].
  rewrite trace_bind. apply Forall_app. split; [apply walk_elements_calls|].
  destruct (result (walk_elements fs path_err native_root elements));
    constructor.
Qed.

(** ** Joined names *)

Lemma trunk_ext_join (trunk ext : str) :
  ~ In (ch ".") trunk ->
  trunk_ext (join_dosname trunk ext false) = (trunk, ext).
Proof.
  intros Hd. unfold join_dosname, trunk_ext.
  destruct (Py.truthy ext || negb (Py.truthy trunk)) eqn:D.
  - change (trunk ++ lit "." ++ ext) with (trunk ++ ch "." :: ext).
    rewrite split_once_first_sep by exact Hd. reflexivity.
  - apply orb_false_iff in D. destruct D as [De _].
    destruct ext; [|discriminate De].
    rewrite app_nil_r, split_once_no_sep by exact Hd. reflexivity.
Qed.

(** Two pairs of trunk and extension whose trunks hold no dot, such as
    the pairs [split_dosname] returns, are joined to the same name only if
    they are the same pair. *)
Theorem join_dosname_injective (trunk ext trunk' ext' : str) :
  ~ In (ch ".") trunk -> ~ In (ch ".") trunk' ->
  join_dosname trunk ext false = join_dosname trunk' ext' false ->
  (trunk, ext) = (trunk', ext').
Proof.
  intros H H' E.
  rewrite <- (@trunk_ext_join trunk ext H), <- (@trunk_ext_join trunk' ext' H'), E.
  reflexivity.
Qed.

Lemma join_dosname_injective_witness :
  (lit "A", lit "B") = (lit "A", lit "B").
Proof.
  apply (@join_dosname_injective (lit "A") (lit "B") (lit "A") (lit "B"));
    [| |reflexivity];
    intros H; simpl in H;
    repeat (destruct H as [H|H]; [discriminate H|]); exact H.
Defined.

(** The mask of [filter_names] is read without regard to the case of its
    letters. *)
Theorem filter_names_mask_case (path : str) (files_list : list str)
        (mask mask' : str) :
  Py.upper mask = Py.upper mask' ->
  filter_names path files_list mask = filter_names path files_list mask'.
Proof.
  intros H. unfold filter_names.
  assert (E : split_dosname mask false = split_dosname mask' false).
  { apply split_dosname_of_dos_upper.
    rewrite <- (dos_upper_of_upper mask), <- (dos_upper_of_upper mask'), H.
    reflexivity. }
  rewrite E. reflexivity.
Qed.

Lemma filter_names_mask_case_witness :
  filter_names (lit "/d") [lit "a.bas"; lit "b.txt"] (lit "*.bas")
  = filter_names (lit "/d") [lit "a.bas"; lit "b.txt"] (lit "*.BAS").
Proof.
  apply (@filter_names_mask_case (lit "/d") [lit "a.bas"; lit "b.txt"]
           (lit "*.bas") (lit "*.BAS")).
  reflexivity.
Defined.

Lemma not_allowable_chars_nil (trunk ext : str) :
  not_allowable_chars trunk ext = [] ->
  forall c, In c (trunk ++ ext) -> allowable c = true.
Proof.
  unfold not_allowable_chars. intros H c Hc.
  destruct (allowable c) eqn:A; [reflexivity|]. exfalso.
  assert (I : In c (filter (fun c => negb (allowable c)) (trunk ++ ext)))
    by (apply filter_In; rewrite A; auto).
  rewrite H in I. exact I.
Qed.

(** A name [match_filename] returns that is not in the directory is a new
    one, made only when the caller asked for it: it is not empty, at most
    twelve characters long, and made of allowable characters with one dot
    at most, so that it passes the character check itself. *)
Theorem match_filename_new_name (fs : filesystem) (name defext path : str)
        (name_err : option basic_error) (isdir : bool) (n : str) :
  result (match_filename fs name defext path name_err isdir) = Returns n ->
  istype_answer fs path n isdir = false ->
  name_err = None /\ n <> [] /\ List.length n <= 12 /\ tame n.
Proof.
  intros H Hnew.
  assert (Hne : name <> [] \/ defext <> []).
  { destruct name; [|left; discriminate].
    destruct defext; [discriminate H | right; discriminate]. }
  rewrite (@match_filename_settles fs name defext path name_err isdir Hne)
    in H.
  assert (S : result (match_settled_name fs (settled_name name defext) path
                                         name_err isdir) = Returns n).
  { destruct (dotted_probe path name defext isdir); [exact H|].
    rewrite bind_istype in H. cbn [result snd] in H.
    destruct (istype_answer fs path name isdir) eqn:T; [|exact H].
    injection H as <-. congruence. }
  apply match_settled_name_returns in S.
  destruct S as [S|[Herr [En Ok]]]; [congruence|].
  set (s := settled_name name defext) in *.
  destruct (split_dosname_lengths s false) as [Lt Le].
  pose proof (not_allowable_chars_nil _ _ Ok) as All.
  pose proof (fun c => proj1 (split_dosname_chars s false c)) as Tr.
  destruct (split_dosname s false) as [t e]. cbn [fst snd] in *.
  split; [exact Herr|]. subst n. unfold join_dosname.
  assert (De : dots e = 0).
  { apply dots_zero. intros F.
    assert (A : allowable (ch ".") = true)
      by (apply All; apply in_or_app; right; exact F).
    discriminate A. }
  assert (Dt : dots t = 0).
  { apply dots_zero. intros F. destruct (Tr _ F) as [_ N]. congruence. }
  destruct (Py.truthy e || negb (Py.truthy t)) eqn:D.
  - split; [destruct t; discriminate|]. split.
    + rewrite !length_app. simpl List.length. lia.
    + split.
      * intros c Hc. apply in_app_or in Hc. destruct Hc as [Hc|[<-|Hc]].
        -- left. apply All. apply in_or_app. auto.
        -- right. reflexivity.
        -- left. apply All. apply in_or_app. auto.
      * rewrite dots_app. change (lit "." ++ e) with (ch "." :: e).
        rewrite dots_cons, N.eqb_refl. lia.
  - apply orb_false_iff in D. destruct D as [_ D].
    apply negb_false_iff in D.
    split; [destruct t; [discriminate D | discriminate]|]. split.
    + rewrite length_app. lia.
    + split.
      * intros c Hc. left. apply All.
        apply in_app_or in Hc. apply in_or_app. exact Hc.
      * rewrite dots_app. lia.
Qed.

Lemma match_filename_new_name_witness :
  @None basic_error = None /\ lit "LONGFILE.BAS" <> []
  /\ List.length (lit "LONGFILE.BAS") <= 12 /\ tame (lit "LONGFILE.BAS").
Proof.
  apply (@match_filename_new_name empty_fs (lit "LongFileName") (lit "bas")
           (lit "/d") None false (lit "LONGFILE.BAS"));
    reflexivity.
Defined.
